(** * compileSense: the simulated execution, complexity and insight service

    A shallow embedding of [codeService.ts]: the execution coordinator
    [executeCode], the syntax validator [detectSyntaxErrors], the pattern
    classifier and output synthesizer [simulateExecution], the complexity
    classifier [analyzeComplexity] and the insight generator [getAIInsights],
    together with the part of the JavaScript platform they rely on (strings,
    regular expressions, numbers, timers and promises).

    Conventions.  Pure helpers are functions.  The three exported
    operations are asynchronous and run in the monad [Async], which threads
    the clock and the random source.  Synchronous work that never returns
    is [None].  The calls to [console.log] have no effect on any result and
    are left out. *)

From Stdlib Require Import String Ascii ZArith List Bool Lia.
From Stdlib Require Import DecimalString DecimalPos.
Import ListNotations.

Local Open Scope string_scope.
Local Open Scope bool_scope.

(** ** JavaScript strings

    A JavaScript string is a sequence of UTF-16 code units.  The model keeps
    the code units below 256, one [ascii] each (so a superscript two is the
    single unit 178, as in the source file). *)

Module JsString.

Definition chr (n : nat) : string := String (ascii_of_nat n) "".

(** The double quote, the superscript two and the line feed. *)
Definition dq : string := chr 34.
Definition sup2 : string := chr 178.
Definition nl : string := chr 10.

Definition code_of (c : ascii) : nat := nat_of_ascii c.

Definition in_range (lo hi : nat) (c : ascii) : bool :=
  (lo <=? code_of c)%nat && (code_of c <=? hi)%nat.

(** WhiteSpace and LineTerminator code units below 256: TAB, LF, VT, FF, CR,
    SP and NBSP.  This is the set of [\s] and of [String.prototype.trim]. *)
Definition is_space (c : ascii) : bool :=
  in_range 9 13 c || (code_of c =? 32)%nat || (code_of c =? 160)%nat.

Definition is_digit (c : ascii) : bool := in_range 48 57 c.

Definition is_upper (c : ascii) : bool := in_range 65 90 c.
Definition is_lower (c : ascii) : bool := in_range 97 122 c.

(** [\w] is [A-Za-z0-9_]. *)
Definition is_word (c : ascii) : bool :=
  is_upper c || is_lower c || is_digit c || (code_of c =? 95)%nat.

(** [.] without the s flag: anything but a line terminator. *)
Definition is_dot (c : ascii) : bool :=
  negb ((code_of c =? 10)%nat || (code_of c =? 13)%nat).

(** [String.prototype.toLowerCase] on one code unit below 256. *)
Definition lower_char (c : ascii) : ascii :=
  if is_upper c
     || (in_range 192 222 c && negb (code_of c =? 215)%nat)
  then ascii_of_nat (code_of c + 32) else c.

(** Canonicalize of the regular-expression i flag (no u flag): the upper-case
    form when it is a single code unit; sharp s, micro sign and y-diaeresis
    have no upper-case form below 256 that another unit shares. *)
Definition canon_char (c : ascii) : ascii :=
  if is_lower c
     || (in_range 224 254 c && negb (code_of c =? 247)%nat)
  then ascii_of_nat (code_of c - 32) else c.

Fixpoint toLowerCase (s : string) : string :=
  match s with
  | "" => ""
  | String c s' => String (lower_char c) (toLowerCase s')
  end.

Definition startsWith (s p : string) : bool := prefix p s.

(** [s.includes(needle)]. *)
Fixpoint includes (s needle : string) : bool :=
  prefix needle s ||
  match s with
  | "" => false
  | String _ s' => includes s' needle
  end.

Fixpoint drop (n : nat) (s : string) : string :=
  match n, s with
  | O, _ => s
  | S n', String _ s' => drop n' s'
  | S _, "" => ""
  end.

(** [s.includes(needle, from)]. *)
Definition includes_from (s needle : string) (from : nat) : bool :=
  includes (drop from s) needle.

(** [s.indexOf(needle)], [None] standing for -1. *)
Fixpoint indexOf (s needle : string) : option nat :=
  if prefix needle s then Some O
  else match s with
       | "" => None
       | String _ s' => option_map S (indexOf s' needle)
       end.

Fixpoint trimStart (s : string) : string :=
  match s with
  | "" => ""
  | String c s' => if is_space c then trimStart s' else s
  end.

Fixpoint trimEnd (s : string) : string :=
  match s with
  | "" => ""
  | String c s' =>
      match trimEnd s' with
      | "" => if is_space c then "" else String c ""
      | t => String c t
      end
  end.

Definition trim (s : string) : string := trimEnd (trimStart s).

(** A string in a condition is true when it is not empty. *)
Definition truthy (s : string) : bool :=
  match s with "" => false | _ => true end.

Fixpoint count_char (c : ascii) (s : string) : nat :=
  match s with
  | "" => O
  | String x s' => (if Ascii.eqb x c then 1 else 0) + count_char c s'
  end.

Fixpoint remove_chars (p : ascii -> bool) (s : string) : string :=
  match s with
  | "" => ""
  | String c s' => if p c then remove_chars p s' else String c (remove_chars p s')
  end.

(** [s.split(sep)] for a one-unit separator. *)
Fixpoint split_on (sep : ascii) (s : string) : list string :=
  match s with
  | "" => [""]
  | String c s' =>
      if Ascii.eqb c sep then "" :: split_on sep s'
      else match split_on sep s' with
           | [] => [String c ""]
           | x :: xs => String c x :: xs
           end
  end.

End JsString.

(** ** Regular expressions

    The backtracking matcher of the ECMAScript specification, for the
    constructs the service's patterns use: literals, classes, greedy and
    lazy repetition, optional parts, capture groups, and the i and g flags.
    Alternatives are tried in the specification's order, so the first
    successful path is the match JavaScript reports. *)

Module JsRegExp.
Import JsString.

Inductive regex : Type :=
| Eps
| Chr (c : ascii)
| Cls (p : ascii -> bool)
| Seq (r1 r2 : regex)
| Star (greedy : bool) (r : regex)
| Opt (greedy : bool) (r : regex)
| Grp (i : nat) (r : regex).

(** A literal string. *)
Fixpoint Lit (s : string) : regex :=
  match s with
  | "" => Eps
  | String c s' => Seq (Chr c) (Lit s')
  end.

Definition Plus (greedy : bool) (r : regex) : regex := Seq r (Star greedy r).

Fixpoint Cat (rs : list regex) : regex :=
  match rs with
  | [] => Eps
  | r :: rs' => Seq r (Cat rs')
  end.

(** Class building blocks. *)
Definition one_of (s : string) (c : ascii) : bool := (0 <? count_char c s)%nat.
Definition none_of (s : string) (c : ascii) : bool := negb (one_of s c).

Definition captures : Type := list (nat * string).

Fixpoint capture (i : nat) (caps : captures) : option string :=
  match caps with
  | [] => None
  | (j, t) :: caps' => if (i =? j)%nat then Some t else capture i caps'
  end.

(** The units of [s] in front of its suffix [rest]. *)
Definition consumed (s rest : string) : string :=
  substring 0 (String.length s - String.length rest) s.

Section Matcher.
(** The i flag. *)
Variable ignoreCase : bool.
Context {R : Type}.

Definition chr_matches (c x : ascii) : bool :=
  if ignoreCase then Ascii.eqb (canon_char c) (canon_char x) else Ascii.eqb c x.

Definition cls_matches (p : ascii -> bool) (x : ascii) : bool :=
  if ignoreCase then p x || p (canon_char x) || p (lower_char x) else p x.

(** The repetition of [step]: greedy, another round first; lazy, the
    continuation first.  A round that consumed nothing is given up, so
    [String.length s] rounds of fuel are never used up. *)
Fixpoint star_loop
         (step : string -> captures -> (string -> captures -> option R) -> option R)
         (greedy : bool) (k : string -> captures -> option R)
         (fuel : nat) (s : string) (caps : captures) {struct fuel} : option R :=
  match fuel with
  | O => k s caps
  | S fuel' =>
      let again (_ : unit) :=
        step s caps
          (fun s' caps' =>
             if (String.length s' <? String.length s)%nat
             then star_loop step greedy k fuel' s' caps' else None) in
      if greedy then
        match again tt with
        | Some v => Some v
        | None => k s caps
        end
      else
        match k s caps with
        | Some v => Some v
        | None => again tt
        end
  end.

(** [rmatch r s caps k]: match [r] at the front of [s], then hand what is
    left to the continuation [k]; [None] makes the matcher backtrack. *)
Fixpoint rmatch (r : regex) (s : string) (caps : captures)
         (k : string -> captures -> option R) {struct r} : option R :=
  match r with
  | Eps => k s caps
  | Chr c =>
      match s with
      | String x s' => if chr_matches c x then k s' caps else None
      | "" => None
      end
  | Cls p =>
      match s with
      | String x s' => if cls_matches p x then k s' caps else None
      | "" => None
      end
  | Seq r1 r2 => rmatch r1 s caps (fun s' caps' => rmatch r2 s' caps' k)
  | Opt greedy r1 =>
      if greedy then
        match rmatch r1 s caps k with
        | Some v => Some v
        | None => k s caps
        end
      else
        match k s caps with
        | Some v => Some v
        | None => rmatch r1 s caps k
        end
  | Grp i r1 =>
      rmatch r1 s caps (fun s' caps' => k s' ((i, consumed s s') :: caps'))
  | Star greedy r1 => star_loop (rmatch r1) greedy k (String.length s) s caps
  end.
End Matcher.

(** The result of [RegExp.prototype.exec]: where the match starts, its text,
    what follows it, and the capture groups. *)
Record match_result : Type := {
  m_index : nat;
  m_text : string;
  m_rest : string;
  m_caps : captures
}.

Definition group (i : nat) (m : match_result) : string :=
  match capture i (m_caps m) with
  | Some t => t
  | None => ""
  end.

Definition match_here (ic : bool) (r : regex) (s : string) (pos : nat)
  : option match_result :=
  rmatch ic r s []
    (fun rest caps =>
       Some {| m_index := pos; m_text := consumed s rest;
               m_rest := rest; m_caps := caps |}).

(** The leftmost match in [s], whose first unit has index [pos]. *)
Fixpoint search (ic : bool) (r : regex) (s : string) (pos : nat)
  : option match_result :=
  match match_here ic r s pos with
  | Some m => Some m
  | None =>
      match s with
      | "" => None
      | String _ s' => search ic r s' (S pos)
      end
  end.

(** [r.test(s)] and [s.match(r)] without the g flag. *)
Definition test (ic : bool) (r : regex) (s : string) : bool :=
  match search ic r s 0 with Some _ => true | None => false end.

Definition exec (ic : bool) (r : regex) (s : string) : option match_result :=
  search ic r s 0.

(** All the matches of a g-flagged pattern, left to right, each search
    resuming where the previous match ended: [s.match(r)], and the
    [while ((m = r.exec(s)) !== null)] loops (whose patterns all start with
    a literal, so that no match is empty and [lastIndex] always advances). *)
Fixpoint match_all_from (fuel : nat) (ic : bool) (r : regex) (s : string)
         (pos : nat) : list match_result :=
  match fuel with
  | O => []
  | S fuel' =>
      match search ic r s pos with
      | None => []
      | Some m =>
          match m_text m, m_rest m with
          | "", "" => [m]
          | "", String _ rest' =>
              m :: match_all_from fuel' ic r rest' (S (m_index m))
          | _, rest =>
              m :: match_all_from fuel' ic r rest (m_index m + String.length (m_text m))
          end
      end
  end.

Definition match_all (ic : bool) (r : regex) (s : string) : list match_result :=
  match_all_from (S (String.length s)) ic r s 0.

(** Character classes of the patterns. *)
Definition s_star : regex := Star true (Cls is_space).
Definition s_plus : regex := Plus true (Cls is_space).
Definition w_star : regex := Star true (Cls is_word).
Definition d_plus : regex := Plus true (Cls is_digit).
Definition quote_opt : regex := Opt true (Cls (one_of (dq ++ "'"))).
Definition quote : regex := Cls (one_of (dq ++ "'")).
Definition ident_plus : regex := Plus true (Cls (fun c => is_word c)).

End JsRegExp.

(** ** Numbers

    A JavaScript number is an IEEE 754 double.  The service only produces
    non-negative integers and sums of them: [Num z] is the double whose
    value is the integer [z], [Infinity] the result of an overflow.  Sums
    below 2^53 are exact; from there on a sum is rounded to 53 significant
    bits, ties to even. *)

Module JsNumber.
Import JsString.
Local Open Scope Z_scope.

Inductive number : Type :=
| Num (z : Z)
| Infinity.

Definition number_eqb (a b : number) : bool :=
  match a, b with
  | Num x, Num y => x =? y
  | Infinity, Infinity => true
  | _, _ => false
  end.

(** The Number value of the non-negative integer [z]. *)
Definition round_double (z : Z) : number :=
  if z <? 2 ^ 53 then Num z
  else
    let e := Z.log2 z - 52 in
    let q := z / 2 ^ e in
    let r := z mod 2 ^ e in
    let half := 2 ^ (e - 1) in
    let q' := if r <? half then q
              else if half <? r then q + 1
              else if Z.even q then q else q + 1 in
    let v := q' * 2 ^ e in
    if v <? 2 ^ 1024 then Num v else Infinity.

(** [a + b] on non-negative numbers. *)
Definition add (a b : number) : number :=
  match a, b with
  | Num x, Num y => round_double (x + y)
  | _, _ => Infinity
  end.

(** [a <= b]. *)
Definition leb (a b : number) : bool :=
  match a, b with
  | Num x, Num y => x <=? y
  | _, Infinity => true
  | Infinity, Num _ => false
  end.

Definition dec (z : Z) : string := NilEmpty.string_of_int (Z.to_int z).

Fixpoint digits_value (acc : Z) (s : string) : Z :=
  match s with
  | "" => acc
  | String c s' => digits_value (10 * acc + (Z.of_nat (code_of c) - 48)) s'
  end.

(** [parseInt(s, 10)] on a non-empty string of decimal digits. *)
Definition parseInt (s : string) : number := round_double (digits_value 0 s).

Fixpoint zeros (n : nat) : string :=
  match n with
  | O => ""
  | S n' => String "0" (zeros n')
  end.

(** Number::toString, radix 10: the digits [s] (there are [k] of them) and
    the position [n] with [s * 10^(n-k)] having the Number value [z], [k]
    the least possible, and [s] the closest to [z] when two would do. *)
Definition digit_count (z : Z) : Z := Z.of_nat (String.length (dec z)).

Definition candidate (z m k c : Z) : bool :=
  (10 ^ (k - 1) <=? c) && (c <? 10 ^ k) && number_eqb (round_double (c * 10 ^ m)) (Num z).

Definition pick (z m k : Z) : option Z :=
  let lo := z / 10 ^ m in
  let hi := lo + 1 in
  let dlo := z - lo * 10 ^ m in
  let dhi := hi * 10 ^ m - z in
  match candidate z m k lo, candidate z m k hi with
  | true, true =>
      if dlo <? dhi then Some lo
      else if dhi <? dlo then Some hi
      else if Z.even lo then Some lo else Some hi
  | true, false => Some lo
  | false, true => Some hi
  | false, false => None
  end.

Fixpoint shortest_from (fuel : nat) (z nd k : Z) : Z * Z :=
  match fuel with
  | O => (z, nd)
  | S fuel' =>
      match pick z (nd - k) k with
      | Some s => (s, k)
      | None => shortest_from fuel' z nd (k + 1)
      end
  end.

(** The pair (digits, position) of a double [z >= 2^53]. *)
Definition shortest (z : Z) : Z * Z * Z :=
  let nd := digit_count z in
  if number_eqb (round_double (10 ^ nd)) (Num z) then (1, 1, nd + 1)
  else let '(s, k) := shortest_from (Z.to_nat nd) z nd 1 in (s, k, nd).

Definition toString_nonneg (z : Z) : string :=
  if z <? 2 ^ 53 then dec z
  else
    let '(s, k, n) := shortest z in
    let ds := dec s in
    if n <=? 21 then ds ++ zeros (Z.to_nat (n - k))
    else
      match ds with
      | String d "" => String d "" ++ "e+" ++ dec (n - 1)
      | String d rest => String d "" ++ "." ++ rest ++ "e+" ++ dec (n - 1)
      | "" => ""
      end.

Definition toString (x : number) : string :=
  match x with
  | Infinity => "Infinity"
  | Num z => if z <? 0 then "-" ++ toString_nonneg (- z) else toString_nonneg z
  end.

End JsNumber.

Import JsString JsRegExp.
Import JsNumber(number, Num, Infinity).

(** ** Data model *)

(** [ProgrammingLanguage] as the selector declares it ('javascript',
    'python', 'java', 'cpp'), and the tag 'c' that the service compares
    against throughout. *)
Inductive ProgrammingLanguage : Type :=
| javascript | python | java | cpp | c.

Definition language_eqb (a b : ProgrammingLanguage) : bool :=
  match a, b with
  | javascript, javascript | python, python | java, java
  | cpp, cpp | c, c => true
  | _, _ => false
  end.

Inductive Status : Type :=
| success | error | running | timeout.

Record ExecutionResult : Type := {
  status : Status;
  output : string;
  executionTime : option Z
}.

Record TimeComplexity : Type := {
  best : string;
  average : string;
  worst : string
}.

Record ComplexityData : Type := {
  timeComplexity : TimeComplexity;
  spaceComplexity : string;
  analysis : string
}.

Inductive InsightType : Type :=
| suggestion | optimization | warning.

(** [code: null] and an absent [rationale] or [impact] are [None]. *)
Record Insight : Type := {
  type : InsightType;
  title : string;
  description : string;
  code : option string;
  rationale : option string;
  impact : option string
}.

(** ** Timers, the clock and the random source

    An asynchronous function runs against a world: the clock in
    milliseconds and the stream of values of [Math.random() * 1000]
    (rounded down).  It returns its value and the world at the moment its
    promise settles, or [None] when the promise never settles because the
    synchronous work in front of it never ends. *)

Record World : Type := {
  now : Z;
  randoms : nat -> Z;
  drawn : nat
}.

Definition Async (A : Type) : Type := World -> option (A * World).

Definition ret {A : Type} (a : A) : Async A := fun w => Some (a, w).

Definition bind {A B : Type} (m : Async A) (f : A -> Async B) : Async B :=
  fun w => match m w with
           | Some (a, w') => f a w'
           | None => None
           end.

Notation "x <- m ;; k" := (bind m (fun x => k))
  (at level 61, m at next level, right associativity).
Notation "m ;;; k" := (bind m (fun _ => k))
  (at level 61, right associativity).

(** [await new Promise(resolve => setTimeout(resolve, ms))]. *)
Definition sleep (ms : Z) : Async unit :=
  fun w => Some (tt, {| now := (now w + Z.max 0 ms)%Z;
                        randoms := randoms w; drawn := drawn w |}).

(** [Date.now()]. *)
Definition Date_now : Async Z := fun w => Some (now w, w).

(** [Math.random() * 1000], rounded down as the timer does. *)
Definition Math_random_1000 : Async Z :=
  fun w => Some (randoms w (drawn w),
                 {| now := now w; randoms := randoms w; drawn := S (drawn w) |}).

(** Synchronous work that may never return. *)
Definition run {A : Type} (work : option A) : Async A :=
  fun w => match work with
           | Some a => Some (a, w)
           | None => None
           end.

(** The value an asynchronous call resolves to. *)
Definition value {A : Type} (r : option (A * World)) : option A :=
  option_map fst r.

(** ** The syntax validator *)

(** [(code.match(r) || []).length] for a g-flagged pattern. *)
Definition match_count (r : regex) (code : string) : nat :=
  List.length (match_all false r code).

(** [/while\s+True/i] *)
Definition whileTrue_py : regex := Cat [Lit "while"; s_plus; Lit "True"].

(** [/while\s*\(\s*true\s*\)/i] *)
Definition whileTrue_c : regex :=
  Cat [Lit "while"; s_star; Chr "("; s_star; Lit "true"; s_star; Chr ")"].

Definition infinite_loop_suspected (code : string) (language : ProgrammingLanguage)
  : bool :=
  (language_eqb language python && test true whileTrue_py code
   && negb (includes code "break"))
  || ((language_eqb language java || language_eqb language cpp
       || language_eqb language c)
      && test true whileTrue_c code && negb (includes code "break")).

Definition detectSyntaxErrors (code : string) (language : ProgrammingLanguage)
  : option string :=
  if infinite_loop_suspected code language then
    Some "Potential infinite loop detected: while loop with no break condition"
  else
    match language with
    | python =>
        if includes code "print(" && negb (includes code ")") then
          Some "SyntaxError: unexpected EOF while parsing"
        else if (includes code "def " || includes code "if " || includes code "for ")
                && negb (includes code ":") then
          Some ("SyntaxError: expected " ++ dq ++ ":" ++ dq)
        else if includes code "input(" && negb (includes code ")") then
          Some "SyntaxError: input statement is missing closing parenthesis"
        else None
    | java =>
        if negb (match_count (Chr "{") code =? match_count (Chr "}") code)%nat then
          Some "error: mismatched curly braces"
        else if negb (includes code "class") then
          Some "error: class declaration missing"
        else if includes code "public static void main" && negb (includes code "{") then
          Some "error: main method body missing"
        else None
    | cpp | c =>
        if negb (match_count (Chr "{") code =? match_count (Chr "}") code)%nat then
          Some "error: mismatched curly braces"
        else
          let hasPrintf := includes code "printf" in
          let hasCout := includes code "cout" in
          if language_eqb language cpp && hasCout && negb (includes code "iostream") then
            Some "error: iostream header missing for cout"
          else if language_eqb language c && hasPrintf && negb (includes code "stdio.h") then
            Some "error: stdio.h header missing for printf"
          else if negb (includes code "main") then
            Some "error: main function missing"
          else None
    | javascript => None
    end.

(** ** The Fibonacci helper *)

(** The [for (let i = 2; i <= n; i++)] loop of [calculateFibonacci], one
    round per unit of fuel; [None] when the fuel does not reach the exit. *)
Fixpoint fib_loop (fuel : nat) (n i a b : number) : option number :=
  if JsNumber.leb i n then
    match fuel with
    | O => None
    | S fuel' => fib_loop fuel' n (JsNumber.add i (Num 1)) b (JsNumber.add a b)
    end
  else Some b.

(** [calculateFibonacci(n)].  The loop runs at most [n - 1] rounds when it
    ends at all, so [n] rounds of fuel decide it; [None] stands for a call
    that never returns ([i++] stops changing [i] at 2^53). *)
Definition calculateFibonacci (n : number) : option number :=
  match n with
  | Infinity => None
  | Num z =>
      if (z <=? 0)%Z then Some (Num 0)
      else if (z =? 1)%Z then Some (Num 1)
      else fib_loop (Z.to_nat z) n (Num 2) (Num 0) (Num 1)
  end.

(** ** The pattern classifier and the output synthesizer *)

Definition hasInputStatements (code : string) (language : ProgrammingLanguage)
  : bool :=
  match language with
  | python => includes code "input("
  | java => includes code "Scanner" && includes code ".next"
  | cpp => includes code "cin >>"
  | c => includes code "scanf"
  | javascript => false
  end.

Definition has_arithmetic (code : string) : bool :=
  includes code "+" || includes code "-" || includes code "*" || includes code "/".

Definition simulated_input (code : string) (echoes : bool) : string :=
  if echoes then
    let output := "Simulated input: 42" ++ nl ++ "Output: 42" ++ nl in
    if has_arithmetic code then output ++ "Calculated result: 84" else output
  else "Simulated input: 42".

Definition simulateInputExecution (code : string) (language : ProgrammingLanguage)
  : string :=
  match language with
  | python => simulated_input code (includes code "input(" && includes code "print(")
  | java => simulated_input code (includes code "Scanner" && includes code "System.out.print")
  | cpp => simulated_input code (includes code "cin >>" && includes code "cout <<")
  | c => simulated_input code (includes code "scanf" && includes code "printf")
  | javascript => ""
  end.

(** [/print\s*\(\s*([^()]*?)\s*\)/g] *)
Definition printRegex_py : regex :=
  Cat [Lit "print"; s_star; Chr "("; s_star;
       Grp 1 (Star false (Cls (none_of "()"))); s_star; Chr ")"].

(** [/fib\w*\s*\(\s*(\d+)\s*\)/], with and without the i flag. *)
Definition fibRegex : regex :=
  Cat [Lit "fib"; w_star; s_star; Chr "("; s_star; Grp 1 d_plus; s_star; Chr ")"].

(** [/System\.out\.println\s*\(\s*["']?(.*?)["']?\s*\)/g] *)
Definition printlnRegex : regex :=
  Cat [Lit "System.out.println"; s_star; Chr "("; s_star; quote_opt;
       Grp 1 (Star false (Cls is_dot)); quote_opt; s_star; Chr ")"].

(** [/System\.out\.print\s*\(\s*["']?(.*?)["']?\s*\)/g] *)
Definition printRegex_java : regex :=
  Cat [Lit "System.out.print"; s_star; Chr "("; s_star; quote_opt;
       Grp 1 (Star false (Cls is_dot)); quote_opt; s_star; Chr ")"].

(** [/System\.out\.print(?:ln)?\s*\(\s*([a-zA-Z0-9_]+)\s*\)/g] *)
Definition printVarRegex : regex :=
  Cat [Lit "System.out.print"; Opt true (Lit "ln"); s_star; Chr "("; s_star;
       Grp 1 ident_plus; s_star; Chr ")"].

(** [/cout\s*<<\s*["']?(.*?)["']?(?:\s*<<\s*endl)?/g] *)
Definition coutRegex : regex :=
  Cat [Lit "cout"; s_star; Lit "<<"; s_star; quote_opt;
       Grp 1 (Star false (Cls is_dot)); quote_opt;
       Opt true (Cat [s_star; Lit "<<"; s_star; Lit "endl"])].

(** [/cout\s*<<\s*([a-zA-Z0-9_]+)/g] *)
Definition coutVarRegex : regex :=
  Cat [Lit "cout"; s_star; Lit "<<"; s_star; Grp 1 ident_plus].

(** [/printf\s*\(\s*["']([^%]*?)["'](?:\s*,\s*.*?)?\s*\)/g] *)
Definition printfRegex : regex :=
  Cat [Lit "printf"; s_star; Chr "("; s_star; quote;
       Grp 1 (Star false (Cls (none_of "%"))); quote;
       Opt true (Cat [s_star; Chr ","; s_star; Star false (Cls is_dot)]);
       s_star; Chr ")"].

(** [/printf\s*\(\s*["'](.*?)["']\s*,\s*(.*?)\s*\)/g] *)
Definition formatPrintfRegex : regex :=
  Cat [Lit "printf"; s_star; Chr "("; s_star; quote;
       Grp 1 (Star false (Cls is_dot)); quote; s_star; Chr ","; s_star;
       Grp 2 (Star false (Cls is_dot)); s_star; Chr ")"].

(** The replacement text of [String.prototype.replace] for a pattern
    without capture groups: [$$], [$&], [$`] and [$'] are expanded. *)
Fixpoint substitution (matched before after repl : string) : string :=
  match repl with
  | "" => ""
  | String "$" (String "$" r) => "$" ++ substitution matched before after r
  | String "$" (String "&" r) => matched ++ substitution matched before after r
  | String "$" (String "`" r) => before ++ substitution matched before after r
  | String "$" (String "'" r) => after ++ substitution matched before after r
  | String x r => String x (substitution matched before after r)
  end.

(** [s.replace(/pat/, repl)] for a literal pattern. *)
Definition replace_first (s pat repl : string) : string :=
  match indexOf s pat with
  | None => s
  | Some i =>
      let before := substring 0 i s in
      let after := drop (i + String.length pat) s in
      before ++ substitution pat before after repl ++ after
  end.

(** [args[0] || fallback]. *)
Definition first_or (args : list string) (fallback : string) : string :=
  match args with
  | a :: _ => if truthy a then a else fallback
  | [] => fallback
  end.

Definition format_printf (formatStr : string) (args : list string) : string :=
  let f1 := if includes formatStr "%d"
            then replace_first formatStr "%d" (first_or args "42") else formatStr in
  let f2 := if includes f1 "%s"
            then replace_first f1 "%s" (first_or args "text") else f1 in
  if includes f2 "%f" then replace_first f2 "%f" (first_or args "42.0") else f2.

(** The body of the Python [while] loop of [extractPrintStatements]: what
    one match adds to the output. *)
Definition python_print (m : match_result) : option string :=
  let printContent := trim (group 1 m) in
  if includes printContent "fibonacci" || includes printContent "fib" then
    match exec false fibRegex printContent with
    | Some fibMatch =>
        if truthy (group 1 fibMatch) then
          match calculateFibonacci (JsNumber.parseInt (group 1 fibMatch)) with
          | Some v => Some (JsNumber.toString v ++ nl)
          | None => None
          end
        else Some ("55" ++ nl)
    | None => Some ("55" ++ nl)
    end
  else if negb (startsWith printContent dq) && negb (startsWith printContent "'") then
    Some ("42" ++ nl)
  else Some (remove_chars (one_of ("'" ++ dq)) printContent ++ nl).

(** [output += f(m)] over the matches, in order; a call that never
    returns stops everything. *)
Fixpoint append_all (f : match_result -> option string) (ms : list match_result)
         (output : string) : option string :=
  match ms with
  | [] => Some output
  | m :: ms' =>
      match f m with
      | Some t => append_all f ms' (output ++ t)
      | None => None
      end
  end.

Definition concat_map (f : match_result -> string) (ms : list match_result)
  : string :=
  fold_left (fun output m => output ++ f m) ms "".

Definition extractPrintStatements (code : string) (language : ProgrammingLanguage)
  : option string :=
  match language with
  | python =>
      option_map trim (append_all python_print (match_all false printRegex_py code) "")
  | java =>
      let o1 := concat_map (fun m => group 1 m ++ nl) (match_all false printlnRegex code) in
      let o2 := concat_map (fun m => group 1 m) (match_all false printRegex_java code) in
      let o3 := concat_map (fun m => "Variable " ++ group 1 m ++ ": 42" ++ nl)
                  (match_all false printVarRegex code) in
      Some (trim (o1 ++ o2 ++ o3))
  | cpp =>
      let newline := includes code "endl" || includes code "\n" in
      let o1 := concat_map (fun m => if newline then group 1 m ++ nl else group 1 m)
                  (match_all false coutRegex code) in
      let o2 := concat_map
                  (fun m => if negb (String.eqb (group 1 m) "endl")
                            then "Variable " ++ group 1 m ++ ": 42" ++ nl else "")
                  (match_all false coutVarRegex code) in
      Some (trim (o1 ++ o2))
  | c =>
      let o1 := concat_map (fun m => group 1 m ++ nl) (match_all false printfRegex code) in
      let o2 := concat_map
                  (fun m => format_printf (group 1 m)
                              (map trim (split_on "," (group 2 m))) ++ nl)
                  (match_all false formatPrintfRegex code) in
      Some (trim (o1 ++ o2))
  | javascript => Some (trim "")
  end.

Definition isFibonacci (code : string) (language : ProgrammingLanguage) : bool :=
  (includes (toLowerCase code) "fibonacci" || includes (toLowerCase code) "fib")
  && (((includes code "n-1" || includes code "n - 1")
       && (includes code "n-2" || includes code "n - 2"))
      || (includes code "a + b" || includes code "a+b")).

(** The argument [simulateFibonacci] computes with: the first integer
    literal matched by [/fib\w*\s*\(\s*(\d+)\s*\)/i], or 10. *)
Definition fibonacci_argument (code : string) : number :=
  match exec true fibRegex code with
  | Some m => if truthy (group 1 m) then JsNumber.parseInt (group 1 m) else Num 10
  | None => Num 10
  end.

Definition prints (code : string) (language : ProgrammingLanguage) : bool :=
  (language_eqb language python && includes code "print")
  || (language_eqb language java && includes code "System.out.print")
  || (language_eqb language cpp && includes code "cout")
  || (language_eqb language c && includes code "printf").

Definition simulateFibonacci (code : string) (language : ProgrammingLanguage)
  : option string :=
  let n := fibonacci_argument code in
  match calculateFibonacci n with
  | None => None
  | Some result =>
      if prints code language then Some (JsNumber.toString result)
      else Some ("Input: n = " ++ JsNumber.toString n ++ nl
                 ++ "Fibonacci(" ++ JsNumber.toString n ++ ") = "
                 ++ JsNumber.toString result)
  end.

(** [/for\s*\(/g] and [/while\s*\(/g] *)
Definition forOpener : regex := Cat [Lit "for"; s_star; Chr "("].
Definition whileOpener : regex := Cat [Lit "while"; s_star; Chr "("].

Definition isBubbleSort (code : string) (language : ProgrammingLanguage) : bool :=
  let hasNestedLoops := (2 <=? match_count forOpener code)%nat in
  let hasSwap := includes code "swap"
                 || (includes code "temp" && includes code ">") in
  hasNestedLoops && hasSwap.

Definition simulateBubbleSort (language : ProgrammingLanguage) : string :=
  match language with
  | java => "Original array: [5, 1, 4, 2, 8]" ++ nl ++ "Sorted array: [1, 2, 4, 5, 8]"
  | python => "Original array: [5, 1, 4, 2, 8]" ++ nl ++ "Sorted array: [1, 2, 4, 5, 8]"
  | cpp | c => "Original array: 5 1 4 2 8" ++ nl ++ "Sorted array: 1 2 4 5 8"
  | javascript => ""
  end.

Definition isSelectionSort (code : string) (language : ProgrammingLanguage) : bool :=
  let hasNestedLoops := (2 <=? match_count forOpener code)%nat in
  let hasMin := includes code "min" || includes code "minimum" in
  let hasSwap := includes code "swap"
                 || (includes code "temp" && includes code "=") in
  hasNestedLoops && (hasMin || hasSwap).

Definition simulateSelectionSort (language : ProgrammingLanguage) : string :=
  match language with
  | java => "Original array: [5, 1, 4, 2, 8]" ++ nl ++ "Sorted array: [1, 2, 4, 5, 8]"
  | python => "Original array: [5, 1, 4, 2, 8]" ++ nl ++ "Sorted array: [1, 2, 4, 5, 8]"
  | cpp | c => "Original array: 5 1 4 2 8" ++ nl ++ "Sorted array: 1 2 4 5 8"
  | javascript => "Sorted array: 1 2 4 5 8"
  end.

Definition says_hello (code : string) : bool :=
  includes code (dq ++ "Hello") || includes code "'Hello".

Definition isHelloWorld (code : string) (language : ProgrammingLanguage) : bool :=
  match language with
  | python => includes code "print" && says_hello code
  | java => includes code "System.out.print" && says_hello code
  | cpp => includes code "cout" && says_hello code
  | c => includes code "printf" && says_hello code
  | javascript => false
  end.

Definition hasArrayOutput (code : string) (language : ProgrammingLanguage) : bool :=
  includes code "array"
  || includes code "[]"
  || includes code "list"
  || (includes code "for" && includes code "print")
  || (includes code "for" && includes code "cout")
  || (includes code "for" && includes code "printf")
  || (includes code "for" && includes code "System.out").

Definition simulateArrayOutput (language : ProgrammingLanguage) : string :=
  match language with
  | python => "Array/List elements: [1, 2, 3, 4, 5]"
  | java => "Array elements: [1, 2, 3, 4, 5]"
  | cpp | c => "Array elements: 1 2 3 4 5"
  | javascript => "Array elements: 1 2 3 4 5"
  end.

Definition hasForLoop (code : string) : bool :=
  includes code "for " || includes code "for(".

Definition hasRecursion (code : string) : bool :=
  includes code "return"
  && ((includes code "(" && includes code ")") || includes code "call").

Definition getDefaultOutput (language : ProgrammingLanguage) : string :=
  match language with
  | python => "Program executed successfully." ++ nl ++ "Output: 42"
  | java => "Program compiled and ran successfully." ++ nl ++ "Output: 42"
  | cpp => "Program executed successfully." ++ nl ++ "Output: 42"
  | c => "Program executed successfully." ++ nl ++ "Output: 42"
  | javascript => "Program executed successfully." ++ nl ++ "Output: 42"
  end.

Definition isFactorial (code : string) (language : ProgrammingLanguage) : bool :=
  (includes code "factorial" || includes code "Factorial")
  && (includes code "n *" || includes code "n*" || includes code "* n").

Definition simulateFactorial (language : ProgrammingLanguage) : string :=
  let n := Num 5 in
  let factorial := Num 120 in
  "Input: n = " ++ JsNumber.toString n ++ nl
  ++ "Factorial(" ++ JsNumber.toString n ++ ") = " ++ JsNumber.toString factorial.

(** [simulateExecution]: the detectors in their fixed order. *)
Definition simulateExecution (code : string) (language : ProgrammingLanguage)
  : option string :=
  if hasInputStatements code language then
    Some (simulateInputExecution code language)
  else
    match extractPrintStatements code language with
    | None => None
    | Some printOutput =>
        if truthy printOutput && truthy (trim printOutput) then Some printOutput
        else if isFibonacci code language then simulateFibonacci code language
        else if isBubbleSort code language then Some (simulateBubbleSort language)
        else if isSelectionSort code language then Some (simulateSelectionSort language)
        else if isHelloWorld code language then Some "Hello, World!"
        else if hasArrayOutput code language then Some (simulateArrayOutput language)
        else if isFactorial code language then Some (simulateFactorial language)
        else if hasForLoop code then
          Some ("Loop executed successfully." ++ nl ++ "Output: 0 1 2 3 4")
        else if hasRecursion code then
          Some ("Recursive function executed." ++ nl ++ "Result: 55")
        else Some (getDefaultOutput language)
    end.

(** ** The execution coordinator *)

(** Maximum execution time before timeout (ms). *)
Definition EXECUTION_TIMEOUT : Z := 5000.

Definition noCodeResult : ExecutionResult :=
  {| status := error;
     output := "No code provided for execution.";
     executionTime := Some 10%Z |}.

Definition timeoutResult : ExecutionResult :=
  {| status := timeout;
     output := "Execution timed out. Your code may contain an infinite loop or is taking too long to process.";
     executionTime := Some EXECUTION_TIMEOUT |}.

(** [executionPromise]: the delay, the validation, the simulation.  None of
    the calls inside the [try] throws, so the [catch] arm is not entered. *)
Definition executionPromise (code : string) (language : ProgrammingLanguage)
           (startTime : Z) : Async ExecutionResult :=
  r <- Math_random_1000 ;;
  sleep (Z.min 800 (r + 500)) ;;;
  match detectSyntaxErrors code language with
  | Some syntaxError =>
      t <- Date_now ;;
      ret {| status := error; output := syntaxError;
             executionTime := Some (t - startTime)%Z |}
  | None =>
      output <- run (simulateExecution code language) ;;
      t <- Date_now ;;
      ret {| status := success; output := output;
             executionTime := Some (t - startTime)%Z |}
  end.

(** [Promise.race([executionPromise, timeoutPromise])]: the timer of
    [timeoutPromise] is due [EXECUTION_TIMEOUT] after the start; the
    execution wins when it settles before that. *)
Definition executeCode (code : string) (language : ProgrammingLanguage)
  : Async ExecutionResult :=
  fun w =>
    if negb (truthy (trim code)) then ret noCodeResult w
    else
      let startTime := now w in
      match executionPromise code language startTime w with
      | None => None
      | Some (result, w') =>
          if (now w' <? startTime + EXECUTION_TIMEOUT)%Z then Some (result, w')
          else Some (timeoutResult,
                     {| now := (startTime + EXECUTION_TIMEOUT)%Z;
                        randoms := randoms w'; drawn := drawn w' |})
      end.

(** ** The complexity classifier *)

Definition profile (b a w space text : string) : ComplexityData :=
  {| timeComplexity := {| best := b; average := a; worst := w |};
     spaceComplexity := space;
     analysis := text |}.

Definition isNestedLoops (code : string) : bool :=
  let forLoopMatches := match_count forOpener code in
  let whileLoopMatches := match_count whileOpener code in
  let after (word : string) (len : nat) : nat :=
    match indexOf code word with
    | Some i => i + len
    | None => len - 1
    end in
  ((2 <=? forLoopMatches + whileLoopMatches)%nat
   && (includes code "for" && includes_from code "for" (after "for" 3)))
  || (includes code "while" && includes_from code "while" (after "while" 5))
  || (includes code "for" && includes code "while")
  || (includes code "while" && includes code "for").

Definition hasFibonacci (code : string) (language : ProgrammingLanguage) : bool :=
  (includes (toLowerCase code) "fibonacci" || includes (toLowerCase code) "fib")
  && (((includes code "n-1" || includes code "n - 1")
       && (includes code "n-2" || includes code "n - 2"))
      || (includes code "a + b" || includes code "a+b")).

Definition hasLoop (code : string) : bool :=
  includes code "for " || includes code "for("
  || includes code "while " || includes code "while(".

Definition hasDynamicProgramming (code : string) : bool :=
  includes code "memo"
  || (includes code "dp" && (includes code "array" || includes code "[]")).

Definition hasBinarySearch (code : string) : bool :=
  includes code "mid" && includes code "left" && includes code "right".

Definition hasDivideAndConquer (code : string) : bool :=
  includes code "merge"
  || (includes code "divide" && includes code "conquer").

Definition hasGreedy (code : string) : bool :=
  includes code "greedy"
  || (includes code "sort" && includes code "max" && includes code "pick").

Definition fibonacciProfile : ComplexityData :=
  profile "O(2^n)" "O(2^n)" "O(2^n)" "O(n)"
    "The recursive implementation of Fibonacci has exponential time complexity due to repeated calculations of the same values. Each function call branches into two more calls until reaching the base cases, creating an exponential number of function calls. The space complexity is O(n) due to the maximum recursion depth.".

Definition dynamicProgrammingProfile : ComplexityData :=
  profile "O(n)" "O(n)" "O(n)" "O(n)"
    "This dynamic programming approach has linear time complexity as it computes each subproblem exactly once and stores the results to avoid redundant calculations. The space complexity is also linear due to the memoization table or DP array.".

Definition binarySearchProfile : ComplexityData :=
  profile "O(1)" "O(log n)" "O(log n)" "O(1)"
    "Binary search has logarithmic time complexity as it divides the search space in half with each comparison. The best case is O(1) when the target is found at the middle position initially. Space complexity is constant as it only uses a fixed number of variables.".

Definition divideAndConquerProfile : ComplexityData :=
  profile "O(n log n)" "O(n log n)" "O(n log n)" "O(n)"
    "This divide and conquer algorithm (likely merge sort or similar) has O(n log n) time complexity. It recursively divides the problem and combines solutions, with log n levels of recursion and n work at each level. The space complexity is O(n) for the auxiliary arrays needed during merging.".

Definition greedyProfile : ComplexityData :=
  profile "O(n log n)" "O(n log n)" "O(n log n)" "O(1)"
    "This greedy algorithm has O(n log n) time complexity dominated by the sorting operation. After sorting, it makes a single pass through the data to make greedy choices. The space complexity is constant if sorting is done in-place.".

Definition nestedLoopsProfile : ComplexityData :=
  profile ("O(n" ++ sup2 ++ ")") ("O(n" ++ sup2 ++ ")") ("O(n" ++ sup2 ++ ")") "O(1)"
    ("The code contains nested loops, resulting in quadratic time complexity. The outer loop executes n times, and for each iteration, the inner loop also executes up to n times, leading to approximately n" ++ sup2 ++ " total operations. Space complexity is constant as it only uses a fixed amount of additional memory regardless of input size.").

Definition singleLoopProfile : ComplexityData :=
  profile "O(n)" "O(n)" "O(n)" "O(1)"
    "The code has linear time complexity as it processes each element once with a single loop. Each element requires a constant number of operations, resulting in linear scaling with input size. Space complexity is constant as it uses a fixed amount of memory regardless of input size.".

Definition defaultProfile : ComplexityData :=
  profile "O(1)" "O(1)" "O(1)" "O(1)"
    "The code appears to have constant time complexity as it does not contain loops or recursive calls. It processes a fixed number of operations regardless of input size, resulting in constant time execution.".

(** The rule chain of [analyzeComplexity], first match wins. *)
Definition classify (code : string) (language : ProgrammingLanguage)
  : ComplexityData :=
  if hasFibonacci code language then fibonacciProfile
  else if hasDynamicProgramming code then dynamicProgrammingProfile
  else if hasBinarySearch code then binarySearchProfile
  else if hasDivideAndConquer code then divideAndConquerProfile
  else if hasGreedy code then greedyProfile
  else if isNestedLoops code then nestedLoopsProfile
  else if hasLoop code then singleLoopProfile
  else defaultProfile.

Definition analyzeComplexity (code : string) (language : ProgrammingLanguage)
  : Async ComplexityData :=
  sleep 2000 ;;;
  ret (classify code language).

(** ** The insight generator *)

Definition lines (ls : list string) : string := String.concat nl ls.

Definition generateMemoizationCode (language : ProgrammingLanguage) : string :=
  match language with
  | python =>
      lines
        [ "# Optimized with memoization";
          "def fibonacci(n, memo={}):";
          "    if n in memo:";
          "        return memo[n]";
          "    if n <= 1:";
          "        return n";
          "    memo[n] = fibonacci(n-1, memo) + fibonacci(n-2, memo)";
          "    return memo[n]" ]
  | java =>
      lines
        [ "// Optimized with memoization";
          "import java.util.HashMap;";
          "import java.util.Map;";
          "";
          "public static int fibonacci(int n) {";
          "    return fibMemo(n, new HashMap<>());";
          "}";
          "";
          "private static int fibMemo(int n, Map<Integer, Integer> memo) {";
          "    if (memo.containsKey(n)) return memo.get(n);";
          "    if (n <= 1) return n;";
          "    memo.put(n, fibMemo(n-1, memo) + fibMemo(n-2, memo));";
          "    return memo.get(n);";
          "}" ]
  | cpp =>
      lines
        [ "// Optimized with memoization";
          "#include <unordered_map>";
          "";
          "int fibonacci(int n) {";
          "    std::unordered_map<int, int> memo;";
          "    return fibMemo(n, memo);";
          "}";
          "";
          "int fibMemo(int n, std::unordered_map<int, int>& memo) {";
          "    if (memo.find(n) != memo.end()) return memo[n];";
          "    if (n <= 1) return n;";
          "    memo[n] = fibMemo(n-1, memo) + fibMemo(n-2, memo);";
          "    return memo[n];";
          "}" ]
  | c | javascript =>
      lines
        [ "// Optimized with memoization";
          "int fibMemo(int n, int memo[], int size) {";
          "    if (n < size && memo[n] != -1) return memo[n];";
          "    if (n <= 1) return n;";
          "    ";
          "    int result = fibMemo(n-1, memo, size) + fibMemo(n-2, memo, size);";
          "    if (n < size) memo[n] = result;";
          "    return result;";
          "}";
          "";
          "int fibonacci(int n) {";
          "    int size = n+1 > 1000 ? 1000 : n+1;";
          "    int memo[size];";
          "    for (int i = 0; i < size; i++) memo[i] = -1;";
          "    return fibMemo(n, memo, size);";
          "}" ]
  end.

Definition generateIterativeFibonacciCode (language : ProgrammingLanguage)
  : string :=
  match language with
  | python =>
      lines
        [ "# Iterative implementation";
          "def fibonacci(n):";
          "    if n <= 1:";
          "        return n";
          "    a, b = 0, 1";
          "    for i in range(2, n+1):";
          "        c = a + b";
          "        a = b";
          "        b = c";
          "    return b" ]
  | java =>
      lines
        [ "// Iterative implementation";
          "public static int fibonacci(int n) {";
          "    if (n <= 1) return n;";
          "    int a = 0, b = 1;";
          "    for (int i = 2; i <= n; i++) {";
          "        int c = a + b;";
          "        a = b;";
          "        b = c;";
          "    }";
          "    return b;";
          "}" ]
  | cpp | c =>
      lines
        [ "// Iterative implementation";
          "int fibonacci(int n) {";
          "    if (n <= 1) return n;";
          "    int a = 0, b = 1;";
          "    for (int i = 2; i <= n; i++) {";
          "        int c = a + b;";
          "        a = b;";
          "        b = c;";
          "    }";
          "    return b;";
          "}" ]
  | javascript => ""
  end.

Definition generateEdgeCaseCode (language : ProgrammingLanguage) : string :=
  match language with
  | python =>
      lines
        [ "# With edge case handling";
          "def process_list(items):";
          "    # Handle empty list case";
          "    if not items:";
          "        return []";
          "    ";
          "    result = []";
          "    for item in items:";
          "        # Handle None items";
          "        if item is None:";
          "            continue";
          "        result.append(process_item(item))";
          "    return result" ]
  | java =>
      lines
        [ "// With edge case handling";
          "public List<Result> processItems(List<Item> items) {";
          "    // Handle null or empty list";
          "    if (items == null || items.isEmpty()) {";
          "        return Collections.emptyList();";
          "    }";
          "    ";
          "    List<Result> results = new ArrayList<>();";
          "    for (Item item : items) {";
          "        // Handle null items";
          "        if (item == null) {";
          "            continue;";
          "        }";
          "        results.add(processItem(item));";
          "    }";
          "    return results;";
          "}" ]
  | cpp =>
      lines
        [ "// With edge case handling";
          "std::vector<Result> processItems(const std::vector<Item>& items) {";
          "    // Handle empty vector";
          "    if (items.empty()) {";
          "        return {};";
          "    }";
          "    ";
          "    std::vector<Result> results;";
          "    results.reserve(items.size());";
          "    for (const auto& item : items) {";
          "        // Handle invalid items";
          "        if (!item.isValid()) {";
          "            continue;";
          "        }";
          "        results.push_back(processItem(item));";
          "    }";
          "    return results;";
          "}" ]
  | c | javascript =>
      lines
        [ "// With edge case handling";
          "Result* processItems(Item* items, int size, int* resultSize) {";
          "    // Handle null or empty array";
          "    if (items == NULL || size <= 0) {";
          "        *resultSize = 0;";
          "        return NULL;";
          "    }";
          "    ";
          "    // Pre-allocate result array";
          ("    Result* results = (Result*" ++ ")malloc(size * sizeof(Result));");
          "    int count = 0;";
          "    ";
          "    for (int i = 0; i < size; i++) {";
          "        // Handle invalid items";
          "        if (!isValid(&items[i])) {";
          "            continue;";
          "        }";
          "        results[count++] = processItem(&items[i]);";
          "    }";
          "    ";
          "    *resultSize = count;";
          "    return results;";
          "}" ]
  end.

Definition generateEarlyTerminationCode (language : ProgrammingLanguage)
  : string :=
  match language with
  | python =>
      lines
        [ "# With early termination";
          "def find_element(items, target):";
          "    for i, item in enumerate(items):";
          "        for j, sub_item in enumerate(item):";
          "            if sub_item == target:";
          "                return (i, j)  # Return immediately when found";
          "    return None  # Not found" ]
  | java =>
      lines
        [ "// With early termination";
          "public Coordinates findElement(List<List<Integer>> matrix, int target) {";
          "    for (int i = 0; i < matrix.size(); i++) {";
          "        List<Integer> row = matrix.get(i);";
          "        for (int j = 0; j < row.size(); j++) {";
          "            if (row.get(j) == target) {";
          "                return new Coordinates(i, j);  // Return immediately when found";
          "            }";
          "        }";
          "    }";
          "    return null;  // Not found";
          "}" ]
  | cpp =>
      lines
        [ "// With early termination";
          "std::optional<Coordinates> findElement(const std::vector<std::vector<int>>& matrix, int target) {";
          "    for (size_t i = 0; i < matrix.size(); i++) {";
          "        for (size_t j = 0; j < matrix[i].size(); j++) {";
          "            if (matrix[i][j] == target) {";
          "                return Coordinates{i, j};  // Return immediately when found";
          "            }";
          "        }";
          "    }";
          "    return std::nullopt;  // Not found";
          "}" ]
  | c | javascript =>
      lines
        [ "// With early termination";
          "int findElement(int** matrix, int rows, int cols, int target, int* row, int* col) {";
          "    for (int i = 0; i < rows; i++) {";
          "        for (int j = 0; j < cols; j++) {";
          "            if (matrix[i][j] == target) {";
          "                *row = i;";
          "                *col = j;";
          "                return 1;  // Found";
          "            }";
          "        }";
          "    }";
          "    return 0;  // Not found";
          "}" ]
  end.

Definition generatePreallocationCode (language : ProgrammingLanguage) : string :=
  match language with
  | python =>
      lines
        [ "# With pre-allocation";
          "def calculate_values(n):";
          "    # Pre-allocate the list with None values";
          "    results = [None] * n";
          "    for i in range(n):";
          "        results[i] = i * i";
          "    return results" ]
  | java =>
      lines
        [ "// With pre-allocation";
          "public List<Integer> calculateValues(int n) {";
          "    // Pre-allocate ArrayList with initial capacity";
          "    List<Integer> results = new ArrayList<>(n);";
          "    for (int i = 0; i < n; i++) {";
          "        results.add(i * i);";
          "    }";
          "    return results;";
          "}" ]
  | cpp =>
      lines
        [ "// With pre-allocation";
          "std::vector<int> calculateValues(int n) {";
          "    // Reserve capacity before adding elements";
          "    std::vector<int> results;";
          "    results.reserve(n);";
          "    for (int i = 0; i < n; i++) {";
          "        results.push_back(i * i);";
          "    }";
          "    return results;";
          "}" ]
  | c | javascript =>
      lines
        [ "// With pre-allocation";
          "int* calculateValues(int n) {";
          "    // Allocate array with exact size needed";
          ("    int* results = (int*" ++ ")malloc(n * sizeof(int));");
          "    for (int i = 0; i < n; i++) {";
          "        results[i] = i * i;";
          "    }";
          "    return results;";
          "}" ]
  end.

Definition generateBaseCheckCode (language : ProgrammingLanguage) : string :=
  match language with
  | python =>
      lines
        [ "# With base case limit check";
          "def fibonacci(n, memo={}):";
          "    # Prevent stack overflow with large inputs";
          "    if n > 50:";
          ("        return " ++ dq ++ "Input too large for recursive solution" ++ dq);
          "        ";
          "    if n in memo:";
          "        return memo[n]";
          "    if n <= 1:";
          "        return n";
          "    memo[n] = fibonacci(n-1, memo) + fibonacci(n-2, memo)";
          "    return memo[n]" ]
  | java =>
      lines
        [ "// With base case limit check";
          "public static int fibonacci(int n) {";
          "    // Prevent stack overflow with large inputs";
          "    if (n > 50) {";
          ("        throw new IllegalArgumentException(" ++ dq ++ "Input too large for recursive solution" ++ dq ++ ");");
          "    }";
          "    ";
          "    return fibHelper(n, new HashMap<>());";
          "}";
          "";
          "private static int fibHelper(int n, Map<Integer, Integer> memo) {";
          "    if (memo.containsKey(n)) return memo.get(n);";
          "    if (n <= 1) return n;";
          "    memo.put(n, fibHelper(n-1, memo) + fibHelper(n-2, memo));";
          "    return memo.get(n);";
          "}" ]
  | cpp | c =>
      lines
        [ "// With base case limit check";
          "int fibonacci(int n) {";
          "    // Prevent stack overflow with large inputs";
          "    if (n > 50) {";
          ("        fprintf(stderr, " ++ dq ++ "Input too large for recursive solution\n" ++ dq ++ ");");
          "        return -1; // Error code";
          "    }";
          "    ";
          "    std::unordered_map<int, int> memo;";
          "    return fibHelper(n, memo);";
          "}";
          "";
          "int fibHelper(int n, std::unordered_map<int, int>& memo) {";
          "    if (memo.find(n) != memo.end()) return memo[n];";
          "    if (n <= 1) return n;";
          "    memo[n] = fibHelper(n-1, memo) + fibHelper(n-2, memo);";
          "    return memo[n];";
          "}" ]
  | javascript => ""
  end.

Definition insight (ty : InsightType) (ti de ra im : string) (co : option string)
  : Insight :=
  {| type := ty; title := ti; description := de; code := co;
     rationale := Some ra; impact := Some im |}.

(** The shape-keyed part of [getAIInsights]. *)
Definition shapeInsights (code : string) (language : ProgrammingLanguage)
  : list Insight :=
  if hasFibonacci code language
     && includes code "return"
     && (includes code "n-1" || includes code "n - 1")
     && (includes code "n-2" || includes code "n - 2")
  then
    [ insight optimization
        "Use Memoization"
        "The current recursive implementation recalculates the same values multiple times, leading to inefficient execution."
        "Memoization stores already computed values, eliminating redundant calculations and significantly improving performance."
        "Reduces time complexity from exponential O(2^n) to linear O(n), making the algorithm practical for larger inputs."
        (Some (generateMemoizationCode language));
      insight optimization
        "Use Iteration Instead of Recursion"
        "An iterative approach can be more efficient for calculating Fibonacci numbers."
        "Iterative solutions avoid the overhead of recursive function calls and potential stack overflow issues for large inputs."
        "Reduces both time and space complexity, while maintaining the same mathematical result."
        (Some (generateIterativeFibonacciCode language));
      insight warning
        "Stack Overflow Risk"
        "The current recursive implementation may cause stack overflow for large values of n (typically n > 40-50)."
        "Each recursive call adds a new frame to the call stack. With exponential growth, large inputs quickly exceed available stack space."
        "The program will crash for moderately large inputs, making it unreliable for production use."
        (Some (generateBaseCheckCode language)) ]
  else if isNestedLoops code then
    [ insight optimization
        "Consider Time Complexity"
        ("Your code contains nested loops, resulting in quadratic O(n" ++ sup2 ++ ") time complexity.")
        "Nested loops process each element multiple times, which can be inefficient for large datasets."
        "May lead to performance issues with large inputs. Consider if a more efficient algorithm exists for your specific problem."
        None;
      insight suggestion
        "Early Termination"
        "Consider adding break conditions to exit loops early when a solution is found."
        "Early termination can significantly improve average-case performance while maintaining correctness."
        "Could improve performance substantially for cases where the target is found early in the dataset."
        (Some (generateEarlyTerminationCode language)) ]
  else if hasLoop code then
    ([ insight suggestion
        "Handle Edge Cases"
        "Ensure your loop properly handles edge cases like empty collections or boundary conditions."
        "Edge cases are often sources of bugs. Explicit handling improves robustness and readability."
        "Prevents potential runtime errors and unexpected behavior with unusual inputs."
        (Some (generateEdgeCaseCode language)) ]
    ++ (if includes code "array" || includes code "list" || includes code "[]"
        then
          [ insight optimization
              "Consider Pre-allocation"
              "If your code builds a result collection inside a loop, consider pre-allocating its size."
              "Dynamic resizing of collections (like ArrayList or Python lists) can be expensive when done repeatedly."
              "Improves performance by avoiding multiple memory reallocations during execution."
              (Some (generatePreallocationCode language)) ]
        else []))%list
  else [].

(** The code samples of the language-specific insights. *)
Definition enumerateSample : string :=
  lines
    [ "# Instead of:";
      "i = 0";
      "for item in items:";
      "    print(i, item)";
      "    i += 1";
      "";
      "# Use enumerate:";
      "for i, item in enumerate(items):";
      "    print(i, item)" ].

Definition conditionalExpressionSample : string :=
  lines
    [ "# Instead of:";
      "if condition:";
      "    x = value1";
      "else:";
      "    x = value2";
      "";
      "# Use:";
      "x = value1 if condition else value2" ].

Definition enhancedForSample : string :=
  lines
    [ "// Instead of:";
      "for (int i = 0; i < list.size(); i++) {";
      "    Item item = list.get(i);";
      "    // process item";
      "}";
      "";
      "// Use:";
      "for (Item item : list) {";
      "    // process item";
      "}";
      "";
      "// Or:";
      "list.forEach(item -> {";
      "    // process item";
      "});" ].

Definition reserveSample : string :=
  lines
    [ "// Instead of:";
      "std::vector<int> result;";
      "for (int i = 0; i < n; i++) {";
      "    result.push_back(calculate(i));";
      "}";
      "";
      "// Use:";
      "std::vector<int> result;";
      "result.reserve(n);  // Reserve space for n elements";
      "for (int i = 0; i < n; i++) {";
      "    result.push_back(calculate(i));";
      "}" ].

(** The language-specific part of [getAIInsights]. *)
Definition languageInsights (code : string) (language : ProgrammingLanguage)
  : list Insight :=
  match language with
  | python =>
      ((if includes code "for " && negb (includes code "enumerate(") then
         [ insight suggestion
             "Use enumerate() for Counter Variables"
             "When you need both the index and value in a loop, use enumerate() instead of manual indexing."
             "enumerate() is more Pythonic and less error-prone than maintaining a separate counter variable."
             "Improves code readability and reduces the chance of off-by-one errors."
             (Some enumerateSample) ]
       else [])
      ++ (if includes code "if " && includes code "else"
             && negb (includes code "elif") then
            [ insight suggestion
                "Consider Using Conditional Expressions"
                "For simple if-else statements that assign values, use Python's conditional expressions."
                "Conditional expressions are more concise and expressive for simple value assignments."
                "Reduces code verbosity while maintaining readability for simple conditions."
                (Some conditionalExpressionSample) ]
          else []))%list
  | java =>
      if includes code "for (" && includes code "get("
         && negb (includes code "forEach") then
        [ insight suggestion
            "Use Enhanced For Loop or forEach()"
            "For iterating over collections, consider using enhanced for loops or the forEach() method."
            "Modern Java idioms improve readability and reduce the chance of indexing errors."
            "Makes code more concise and less error-prone for collection traversal."
            (Some enhancedForSample) ]
      else []
  | cpp =>
      if includes code "for (" && includes code "push_back"
         && negb (includes code "reserve") then
        [ insight optimization
            "Reserve Vector Capacity"
            "When building vectors in a loop, reserve capacity upfront if the size is known."
            "Calling reserve() prevents multiple reallocations and copies as the vector grows."
            "Improves performance by reducing memory management overhead during execution."
            (Some reserveSample) ]
      else []
  | c | javascript => []
  end.

Definition genericInsights : list Insight :=
  [ insight suggestion
      "Add Error Handling"
      "Consider adding error handling to make your code more robust."
      "Proper error handling prevents crashes and improves user experience when unexpected situations occur."
      "Makes your code more reliable and easier to debug when issues arise."
      None;
    insight suggestion
      "Add Documentation"
      "Adding comments and documentation can make your code more maintainable."
      "Well-documented code is easier for others (and your future self) to understand and modify."
      "Improves long-term maintainability and helps onboard new developers to the codebase."
      None ].

(** [getAIInsights]: the pushes onto the fresh [insights] array, in order;
    the generic pair when nothing was pushed. *)
Definition collectInsights (code : string) (language : ProgrammingLanguage)
           (complexityData : ComplexityData) : list Insight :=
  let insights :=
    (shapeInsights code language ++ languageInsights code language)%list in
  if (List.length insights =? 0)%nat then (insights ++ genericInsights)%list
  else insights.

Definition getAIInsights (code : string) (language : ProgrammingLanguage)
           (complexityData : ComplexityData) : Async (list Insight) :=
  sleep 1000 ;;;
  ret (collectInsights code language complexityData).

(** ** Earlier revisions of the service

    [Rev1] is the first revision of [codeService.ts] (a fixed delay and two
    profiles); [Rev2] is the revision under [src/services/codeService.ts]
    (loop counting by the words "for" and "while"). *)

Module Rev1.

Definition hasFibonacci (code : string) : bool :=
  includes code "fibonacci" && includes code "return"
  && includes code "n-1" && includes code "n-2".

Definition classify (code : string) (language : ProgrammingLanguage)
  : ComplexityData :=
  if hasFibonacci code then
    profile "O(2^n)" "O(2^n)" "O(2^n)" "O(n)"
      "The recursive implementation of Fibonacci has exponential time complexity due to repeated calculations of the same values. Consider using dynamic programming or memoization to improve performance."
  else
    profile "O(1)" "O(n)" "O(n)" "O(1)"
      "The code appears to have linear time complexity as it processes each element once. Space complexity is constant as it uses a fixed amount of memory regardless of input size.".

Definition analyzeComplexity (code : string) (language : ProgrammingLanguage)
  : Async ComplexityData :=
  sleep 2000 ;;;
  ret (classify code language).

End Rev1.

Module Rev2.

Definition hasLoop (code : string) : bool :=
  includes code "for" || includes code "while".

(** [(code.match(/for/g) || []).length > 1 || ...] *)
Definition hasNestedLoop (code : string) : bool :=
  (1 <? match_count (Lit "for") code)%nat
  || (1 <? match_count (Lit "while") code)%nat
  || (includes code "for" && includes code "while").

Definition hasFibonacci_complexity (code : string) : bool :=
  includes code "fibonacci"
  && (includes code "return" || includes code "return ")
  && (includes code "n-1" || includes code "n - 1")
  && (includes code "n-2" || includes code "n - 2").

Definition classify (code : string) (language : ProgrammingLanguage)
  : ComplexityData :=
  if hasFibonacci_complexity code then
    profile "O(2^n)" "O(2^n)" "O(2^n)" "O(n)"
      "The recursive implementation of Fibonacci has exponential time complexity due to repeated calculations of the same values. Consider using dynamic programming or memoization to improve performance."
  else if hasNestedLoop code then
    profile ("O(n" ++ sup2 ++ ")") ("O(n" ++ sup2 ++ ")") ("O(n" ++ sup2 ++ ")") "O(1)"
      "The code contains nested loops, resulting in quadratic time complexity. Each element in the outer loop iterates through all elements in the inner loop."
  else if hasLoop code then
    profile "O(n)" "O(n)" "O(n)" "O(1)"
      "The code has linear time complexity as it processes each element once with a single loop. Space complexity is constant as it uses a fixed amount of memory regardless of input size."
  else
    profile "O(1)" "O(1)" "O(1)" "O(1)"
      "The code appears to have constant time complexity as it does not contain loops or recursive calls. It processes a fixed number of operations regardless of input size.".

Definition analyzeComplexity (code : string) (language : ProgrammingLanguage)
  : Async ComplexityData :=
  sleep 2000 ;;;
  ret (classify code language).

Definition hasFibonacci_insights (code : string) : bool :=
  includes code "fibonacci" && includes code "return"
  && (includes code "n-1" || includes code "n - 1")
  && (includes code "n-2" || includes code "n - 2").

(** This revision's [Insight] has no [rationale] and no [impact]. *)
Definition insight (ty : InsightType) (ti de : string) (co : option string)
  : Insight :=
  {| type := ty; title := ti; description := de; code := co;
     rationale := None; impact := None |}.

(** The conditional expressions under [code:]. *)
Definition memoizationSample (language : ProgrammingLanguage) : string :=
  match language with
  | python =>
      lines
        [ "# Optimized with memoization";
          "def fibonacci(n, memo={}):";
          "    if n in memo:";
          "        return memo[n]";
          "    if n <= 1:";
          "        return n";
          "    memo[n] = fibonacci(n-1, memo) + fibonacci(n-2, memo)";
          "    return memo[n]" ]
  | java =>
      lines
        [ "// Optimized with memoization";
          "public static int fibonacci(int n, Map<Integer, Integer> memo) {";
          "    if (memo.containsKey(n)) return memo.get(n);";
          "    if (n <= 1) return n;";
          "    memo.put(n, fibonacci(n-1, memo) + fibonacci(n-2, memo));";
          "    return memo.get(n);";
          "}" ]
  | cpp | c =>
      lines
        [ "// Optimized with memoization";
          "int fibonacci(int n, std::unordered_map<int, int>& memo) {";
          "    if (memo.find(n) != memo.end()) return memo[n];";
          "    if (n <= 1) return n;";
          "    memo[n] = fibonacci(n-1, memo) + fibonacci(n-2, memo);";
          "    return memo[n];";
          "}" ]
  | javascript =>
      lines
        [ "// Optimized with memoization";
          "int fibonacci(int n, int memo[]) {";
          "    if (memo[n] != -1) return memo[n];";
          "    if (n <= 1) return n;";
          "    memo[n] = fibonacci(n-1, memo) + fibonacci(n-2, memo);";
          "    return memo[n];";
          "}" ]
  end.

Definition iterationSample (language : ProgrammingLanguage) : string :=
  match language with
  | python =>
      lines
        [ "# Iterative implementation";
          "def fibonacci(n):";
          "    if n <= 1:";
          "        return n";
          "    a, b = 0, 1";
          "    for i in range(2, n+1):";
          "        c = a + b";
          "        a = b";
          "        b = c";
          "    return b" ]
  | java =>
      lines
        [ "// Iterative implementation";
          "public static int fibonacci(int n) {";
          "    if (n <= 1) return n;";
          "    int a = 0, b = 1;";
          "    for (int i = 2; i <= n; i++) {";
          "        int c = a + b;";
          "        a = b;";
          "        b = c;";
          "    }";
          "    return b;";
          "}" ]
  | cpp | c =>
      lines
        [ "// Iterative implementation";
          "int fibonacci(int n) {";
          "    if (n <= 1) return n;";
          "    int a = 0, b = 1;";
          "    for (int i = 2; i <= n; i++) {";
          "        int c = a + b;";
          "        a = b;";
          "        b = c;";
          "    }";
          "    return b;";
          "}" ]
  | javascript =>
      lines
        [ "// Iterative implementation";
          "int fibonacci(int n) {";
          "    if (n <= 1) return n;";
          "    int a = 0, b = 1;";
          "    for (int i = 2; i <= n; i++) {";
          "        int c = a + b;";
          "        a = b;";
          "        b = c;";
          "    }";
          "    return b;";
          "}" ]
  end.

Definition formatSample (language : ProgrammingLanguage) : string :=
  match language with
  | python =>
      lines
        [ "# Formatted output";
          ("print(f" ++ dq ++ "The result is: {result}" ++ dq ++ ")") ]
  | java =>
      lines
        [ "// Formatted output";
          ("System.out.printf(" ++ dq ++ "The result is: %d\n" ++ dq ++ ", result);") ]
  | cpp =>
      lines
        [ "// Formatted output";
          ("std::cout << " ++ dq ++ "The result is: " ++ dq ++ " << result << std::endl;") ]
  | c | javascript =>
      lines
        [ "// Formatted output";
          ("printf(" ++ dq ++ "The result is: %d\n" ++ dq ++ ", result);") ]
  end.

Definition collectInsights (code : string) (language : ProgrammingLanguage)
           (complexityData : ComplexityData) : list Insight :=
  let hasPrint := language_eqb language python && includes code "print" in
  let hasSystemOut := language_eqb language java && includes code "System.out" in
  let hasCout := language_eqb language cpp && includes code "cout" in
  let hasPrintf := (language_eqb language c || language_eqb language cpp)
                   && includes code "printf" in
  if hasFibonacci_insights code then
    [ insight optimization
        "Use Memoization"
        "The current recursive implementation recalculates the same values multiple times. Using memoization can reduce time complexity from O(2^n) to O(n)."
        (Some (memoizationSample language));
      insight optimization
        "Use Iteration Instead of Recursion"
        "An iterative approach can be more efficient for calculating Fibonacci numbers, avoiding stack overhead and potential stack overflow for large inputs."
        (Some (iterationSample language));
      insight warning
        "Stack Overflow Risk"
        "The current recursive implementation may cause stack overflow for large values of n (typically n > 40-50). Consider adding a base case check for large inputs."
        None ]
  else if hasLoop code then
    [ insight suggestion
        "Consider Edge Cases"
        "Make sure your loop handles edge cases correctly, such as empty collections or boundary conditions."
        None;
      insight optimization
        "Early Termination"
        "Consider adding early termination conditions to your loop when the goal is achieved before iterating through all elements."
        None ]
  else if hasPrint || hasSystemOut || hasCout || hasPrintf then
    [ insight suggestion
        "Add Error Handling"
        "Consider adding error handling around your output statements to make your code more robust."
        None;
      insight suggestion
        "Format Output"
        "Use formatting to make your output more readable and structured."
        (Some (formatSample language)) ]
  else
    [ insight suggestion
        "Add Error Handling"
        "Consider adding error handling to make your code more robust. This will help catch and manage unexpected inputs or runtime errors."
        None;
      insight suggestion
        "Add Documentation"
        "Adding comments and documentation can make your code more maintainable and easier for others to understand."
        None ].

Definition getAIInsights (code : string) (language : ProgrammingLanguage)
           (complexityData : ComplexityData) : Async (list Insight) :=
  sleep 1000 ;;;
  ret (collectInsights code language complexityData).

End Rev2.

(** ** Definitions used by the statements *)

(** The Fibonacci numbers: Fib(0) = 0, Fib(1) = 1, Fib(n+2) = Fib(n) + Fib(n+1). *)
Fixpoint Fib (n : nat) : Z :=
  match n with
  | O => 0%Z
  | S m => match m with
           | O => 1%Z
           | S k => (Fib k + Fib m)%Z
           end
  end.

(** The value the specification asks of [calculateFibonacci]. *)
Definition fibonacci_number (n : Z) : Z :=
  if (n <=? 0)%Z then 0%Z else Fib (Z.to_nat n).

(** A linear-time way to the same numbers, to evaluate [Fib 78]. *)
Definition fib_pairs (n : nat) : Z * Z :=
  Nat.iter n (fun p => (snd p, (fst p + snd p)%Z)) (0%Z, 1%Z).

(** The two output formats of [simulateFibonacci]. *)
Definition fibonacci_report (code : string) (language : ProgrammingLanguage)
           (n result : number) : string :=
  if prints code language then JsNumber.toString result
  else "Input: n = " ++ JsNumber.toString n ++ nl
       ++ "Fibonacci(" ++ JsNumber.toString n ++ ") = " ++ JsNumber.toString result.

(** The delay in front of the execution and the world in which the
    execution promise settles. *)
Definition delay (w : World) : Z :=
  Z.max 0 (Z.min 800 (randoms w (drawn w) + 500)).

Definition settled (w : World) : World :=
  {| now := (now w + delay w)%Z; randoms := randoms w; drawn := S (drawn w) |}.

Definition elapsed (w : World) : option Z := Some (now w + delay w - now w)%Z.

(** A world to evaluate examples in. *)
Definition world0 : World :=
  {| now := 0%Z; randoms := fun _ => 250%Z; drawn := O |}.


(** The natural order of the complexity classes:
    O(1) < O(log n) < O(n) < O(n log n) < O(n^2) < O(2^n). *)
Definition class_rank (label : string) : option nat :=
  if String.eqb label "O(1)" then Some 0
  else if String.eqb label "O(log n)" then Some 1
  else if String.eqb label "O(n)" then Some 2
  else if String.eqb label "O(n log n)" then Some 3
  else if String.eqb label ("O(n" ++ sup2 ++ ")") then Some 4
  else if String.eqb label "O(2^n)" then Some 5
  else None.

Definition class_le (a b : string) : Prop :=
  match class_rank a, class_rank b with
  | Some x, Some y => x <= y
  | _, _ => False
  end.

Definition ordered (p : ComplexityData) : Prop :=
  class_le (best (timeComplexity p)) (average (timeComplexity p))
  /\ class_le (average (timeComplexity p)) (worst (timeComplexity p)).

(** Snippets for the examples. *)
Definition pythonFibonacci10 : string :=
  lines
    [ "def fibonacci(n):";
      "    if n <= 1:";
      "        return n";
      "    return fibonacci(n-1) + fibonacci(n-2)";
      "";
      "print(fibonacci(10))" ].

Definition javascriptBubbleSort : string :=
  lines
    [ "for (let i = 0; i < n; i++) {";
      "  for (let j = 0; j < n - i - 1; j++) {";
      "    if (a[j] > a[j + 1]) swap(a, j, j + 1);";
      "  }";
      "}" ].

Definition javaEndlessLoop : string := "class Main { void run() { while (true) { } }".


Definition nestedLoopsPlain : string :=
  lines
    [ "for (int i = 0; i < n; i++) {";
      "  for (int j = 0; j < m; j++) {";
      "    total += a[i] * b[j];";
      "  }";
      "}" ].

Definition pythonEndlessFibonacci : string :=
  lines
    [ "def fib(n):";
      "    if n <= 1:";
      "        return n";
      "    return fib(n-1) + fib(n-2)";
      "";
      "x = fib(9007199254740993)" ].

Definition memoizedFibonacciWithLoops : string :=
  lines
    [ "int fib(int n) {";
      "  for (int i = 2; i <= n; i++) {";
      "    for (int j = 0; j < 1; j++) {";
      "      memo[i] = memo[i-1] + memo[i-2];";
      "    }";
      "  }";
      "  return fib(n-1) + fib(n-2);";
      "}" ].

(** [t] is what is left of [s] after some of its first units. *)
Definition suffix (t s : string) : Prop := exists n, t = drop n s.

Definition infiniteLoopDiagnostic : string :=
  "Potential infinite loop detected: while loop with no break condition".

(** ** Further definitions used by the statements *)

(** What a successful result tells about the snippet, tag by tag: the
    checks of [detectSyntaxErrors] that must have passed. *)
Definition validated (code : string) (language : ProgrammingLanguage) : Prop :=
  match language with
  | python =>
      (includes code "print(" = true -> includes code ")" = true)
      /\ (includes code "def " = true \/ includes code "if " = true
          \/ includes code "for " = true -> includes code ":" = true)
      /\ (includes code "input(" = true -> includes code ")" = true)
  | java =>
      count_char "{" code = count_char "}" code
      /\ includes code "class" = true
      /\ (includes code "public static void main" = true ->
          includes code "{" = true)
  | cpp =>
      count_char "{" code = count_char "}" code
      /\ includes code "main" = true
      /\ (includes code "cout" = true -> includes code "iostream" = true)
  | c =>
      count_char "{" code = count_char "}" code
      /\ includes code "main" = true
      /\ (includes code "printf" = true -> includes code "stdio.h" = true)
  | javascript => True
  end.

(** [k] rounds of the loop of [calculateFibonacci] on the pair (a, b). *)
Definition fib_rounds (k : nat) (p : number * number) : number * number :=
  Nat.iter k (fun p => (snd p, JsNumber.add (fst p) (snd p))) p.

(** Snippets for the examples. *)
Definition cSingleLoop : string := "for (i = 0; i < n; i++) total += i;".

Definition pythonFibonacciWithLoop : string :=
  lines
    [ "def fibonacci(n):";
      "    if n <= 1:";
      "        return n";
      "    else:";
      "        return fibonacci(n-1) + fibonacci(n-2)";
      "";
      "for i in range(10):";
      "    fibonacci(i)" ].

(** A pattern without capture groups. *)
Fixpoint group_free (r : regex) : bool :=
  match r with
  | Eps | Chr _ | Cls _ => true
  | Seq r1 r2 => group_free r1 && group_free r2
  | Star _ r1 | Opt _ r1 => group_free r1
  | Grp _ _ => false
  end.

(** A string of white space only. *)
Definition blank (s : string) : Prop := trimStart s = "".

(** What the print extraction makes of the one-statement Python program
    [print(arg)], by the three arms of its loop body. *)
Definition python_print_output (arg : string) : string :=
  let printContent := trim arg in
  if includes printContent "fibonacci" || includes printContent "fib" then "55"
  else if negb (startsWith printContent dq) && negb (startsWith printContent "'")
       then "42"
       else trim (remove_chars (one_of ("'" ++ dq)) printContent).

(** [codeTemplates] of the editor (CodeEditor.tsx): the sample each
    language of the selector starts with; the record has no entry for
    'c'. *)
Definition codeTemplates (language : ProgrammingLanguage) : option string :=
  match language with
  | javascript =>
      Some (lines ["// JavaScript Example";
                   "function fibonacci(n) {";
                   "  if (n <= 1) return n;";
                   "  return fibonacci(n-1) + fibonacci(n-2);";
                   "}";
                   "";
                   "// Test with n=10";
                   "console.log(fibonacci(10));"])
  | python =>
      Some (lines ["# Python Example";
                   "def fibonacci(n):";
                   "    if n <= 1:";
                   "        return n";
                   "    return fibonacci(n-1) + fibonacci(n-2)";
                   "";
                   "# Test with n=10";
                   "print(fibonacci(10))"])
  | java =>
      Some (lines ["// Java Example";
                   "public class Main {";
                   "    public static void main(String[] args) {";
                   "        System.out.println(fibonacci(10));";
                   "    }";
                   "    ";
                   "    public static int fibonacci(int n) {";
                   "        if (n <= 1) return n;";
                   "        return fibonacci(n-1) + fibonacci(n-2);";
                   "    }";
                   "}"])
  | cpp =>
      Some (lines ["// C++ Example";
                   "#include <iostream>";
                   "";
                   "int fibonacci(int n) {";
                   "    if (n <= 1) return n;";
                   "    return fibonacci(n-1) + fibonacci(n-2);";
                   "}";
                   "";
                   "int main() {";
                   "    std::cout << fibonacci(10) << std::endl;";
                   "    return 0;";
                   "}"])
  | c => None
  end.

(** [codeTemplates[language]] for a language of the selector. *)
Definition template (language : ProgrammingLanguage) : string :=
  match codeTemplates language with Some code => code | None => "" end.

(** * Properties *)

(** ** Strings and matches *)

Lemma drop_empty (n : nat) : drop n "" = "".
Proof. now destruct n. Qed.

Lemma drop_drop (m n : nat) (s : string) : drop n (drop m s) = drop (m + n) s.
Proof.
  revert s. induction m as [|m IH]; intros s; [reflexivity|].
  destruct s; cbn [drop Nat.add]; [apply drop_empty | apply IH].
Qed.

Lemma suffix_refl (s : string) : suffix s s.
Proof. now exists 0. Qed.

Lemma suffix_tail (x : ascii) (s : string) : suffix s (String x s).
Proof. now exists 1. Qed.

Lemma suffix_trans (a b d : string) : suffix a b -> suffix b d -> suffix a d.
Proof.
  intros [n ->] [m ->]. exists (m + n). apply drop_drop.
Qed.

Lemma drop_append (l s : string) : drop (String.length l) (l ++ s) = s.
Proof. induction l; [reflexivity | assumption]. Qed.

Lemma prefix_append (l s : string) : prefix l (l ++ s) = true.
Proof.
  induction l as [|x l IH]; [now destruct s|].
  cbn [append prefix]. destruct (ascii_dec x x); [exact IH | congruence].
Qed.

Lemma star_loop_suffix (R : Type)
      (step : string -> captures -> (string -> captures -> option R) -> option R)
      (greedy : bool) (k : string -> captures -> option R) :
  (forall s caps k' v,
      step s caps k' = Some v ->
      exists s' caps', suffix s' s /\ k' s' caps' = Some v) ->
  forall (fuel : nat) (s : string) (caps : captures) (v : R),
    star_loop step greedy k fuel s caps = Some v ->
    exists s' caps', suffix s' s /\ k s' caps' = Some v.
Proof.
  intros Hstep fuel. induction fuel as [|fuel IH]; intros s caps v H;
    cbn [star_loop] in H.
  - exists s, caps. split; [apply suffix_refl | assumption].
  - assert (Hagain :
              forall w,
                step s caps
                  (fun s' caps' =>
                     if (String.length s' <? String.length s)%nat
                     then star_loop step greedy k fuel s' caps' else None)
                = Some w ->
                exists s' caps', suffix s' s /\ k s' caps' = Some w).
    { intros w Hw. apply Hstep in Hw. destruct Hw as (s1 & c1 & Hs1 & Hw).
      destruct (String.length s1 <? String.length s)%nat; [|discriminate].
      apply IH in Hw. destruct Hw as (s2 & c2 & Hs2 & Hw).
      exists s2, c2. split; [eapply suffix_trans; eassumption | assumption]. }
    cbn zeta in H. destruct greedy.
    + match type of H with
      | match ?a with _ => _ end = _ => destruct a as [w|] eqn:Ha
      end.
      * inversion H; subst. now apply Hagain.
      * exists s, caps. split; [apply suffix_refl | assumption].
    + destruct (k s caps) as [w|] eqn:Hk.
      * inversion H; subst. exists s, caps.
        split; [apply suffix_refl | assumption].
      * now apply Hagain.
Qed.

(** A successful match hands a suffix of its input to the continuation. *)
Lemma rmatch_suffix (ic : bool) (R : Type) (r : regex) :
  forall (s : string) (caps : captures)
         (k : string -> captures -> option R) (v : R),
    rmatch ic r s caps k = Some v ->
    exists s' caps', suffix s' s /\ k s' caps' = Some v.
Proof.
  induction r as [ | x | p | r1 IH1 r2 IH2 | g r1 IH | g r1 IH | i r1 IH];
    intros s caps k v H; cbn [rmatch] in H.
  - exists s, caps. split; [apply suffix_refl | assumption].
  - destruct s as [|y s]; [discriminate|].
    destruct (chr_matches ic x y); [|discriminate].
    exists s, caps. split; [apply suffix_tail | assumption].
  - destruct s as [|y s]; [discriminate|].
    destruct (cls_matches ic p y); [|discriminate].
    exists s, caps. split; [apply suffix_tail | assumption].
  - apply IH1 in H. destruct H as (s1 & c1 & Hs1 & H).
    apply IH2 in H. destruct H as (s2 & c2 & Hs2 & H).
    exists s2, c2. split; [eapply suffix_trans; eassumption | assumption].
  - eapply star_loop_suffix; [|eassumption].
    intros s0 c0 k0 v0 H0. exact (IH s0 c0 k0 v0 H0).
  - destruct g.
    + destruct (rmatch ic r1 s caps k) as [w|] eqn:Hr.
      * inversion H; subst. exact (IH _ _ _ _ Hr).
      * exists s, caps. split; [apply suffix_refl | assumption].
    + destruct (k s caps) as [w|] eqn:Hk.
      * inversion H; subst. exists s, caps.
        split; [apply suffix_refl | assumption].
      * exact (IH _ _ _ _ H).
  - apply IH in H. destruct H as (s1 & c1 & Hs1 & H).
    now exists s1, ((i, consumed s s1) :: c1).
Qed.

Lemma rmatch_Lit (R : Type) (l : string) :
  forall (s : string) (caps : captures)
         (k : string -> captures -> option R) (v : R),
    rmatch false (Lit l) s caps k = Some v ->
    exists s', s = l ++ s' /\ k s' caps = Some v.
Proof.
  induction l as [|x l IH]; intros s caps k v H; cbn [Lit rmatch] in H.
  - now exists s.
  - destruct s as [|y s]; [discriminate|].
    unfold chr_matches in H. destruct (Ascii.eqb_spec x y) as [->|]; [|discriminate].
    apply IH in H. destruct H as (s' & -> & H). now exists s'.
Qed.

(** A match of a pattern that starts with the literal [word] starts with
    [word], and what follows the match lies behind that word. *)
Lemma match_here_word (word : string) (r : regex) (s : string) (pos : nat)
      (m : match_result) :
  match_here false (Seq (Lit word) r) s pos = Some m ->
  prefix word s = true /\ suffix (m_rest m) (drop (String.length word) s).
Proof.
  unfold match_here. cbn [rmatch]. intros H.
  apply rmatch_Lit in H. destruct H as (s1 & -> & H).
  apply rmatch_suffix in H. destruct H as (s2 & c2 & Hs & H).
  inversion H; subst; cbn [m_rest].
  split; [apply prefix_append | now rewrite drop_append].
Qed.

Lemma search_word (word : string) (r : regex) :
  forall (s : string) (pos : nat) (m : match_result),
    search false (Seq (Lit word) r) s pos = Some m ->
    exists n, prefix word (drop n s) = true
              /\ suffix (m_rest m) (drop (n + String.length word) s).
Proof.
  induction s as [|x s IH]; intros pos m H; cbn [search] in H.
  - destruct (match_here false (Seq (Lit word) r) "" pos) as [m'|] eqn:Hm;
      [|discriminate].
    inversion H; subst. exists 0. now apply match_here_word in Hm.
  - destruct (match_here false (Seq (Lit word) r) (String x s) pos) as [m'|] eqn:Hm.
    + inversion H; subst. exists 0. now apply match_here_word in Hm.
    + apply IH in H. destruct H as (n & Hp & Hs). now exists (S n).
Qed.

Lemma includes_at (needle : string) :
  forall (n : nat) (s : string),
    prefix needle (drop n s) = true -> includes s needle = true.
Proof.
  induction n as [|n IH]; intros s H.
  - cbn [drop] in H. destruct s; cbn [includes]; now rewrite H.
  - destruct s as [|x s]; cbn [drop] in H; cbn [includes].
    + now rewrite H.
    + rewrite (IH s H). apply orb_true_r.
Qed.




Lemma match_all_nonempty (r : regex) (fuel : nat) (s : string) (pos : nat) :
  1 <= List.length (match_all_from fuel false r s pos) ->
  exists m, search false r s pos = Some m.
Proof.
  destruct fuel as [|fuel]; cbn [match_all_from List.length]; [lia|].
  destruct (search false r s pos) as [m|]; [now exists m | cbn; lia].
Qed.

(** One match of a pattern that starts with [word]: the word occurs. *)
Lemma word_once (word : string) (r : regex) (code : string) :
  1 <= match_count (Seq (Lit word) r) code -> includes code word = true.
Proof.
  unfold match_count, match_all. intros H.
  apply match_all_nonempty in H. destruct H as [m H].
  apply search_word in H. destruct H as (n & Hp & _).
  now apply includes_at with n.
Qed.


Lemma for_once (code : string) :
  1 <= match_count forOpener code -> includes code "for" = true.
Proof. exact (word_once "for" (Cat [s_star; Chr "("]) code). Qed.





(** *** Counting characters *)

Lemma consumed_one (x : ascii) (s : string) :
  consumed (String x s) s = String x "".
Proof.
  unfold consumed. cbn [String.length].
  replace (S (String.length s) - String.length s) with 1 by lia.
  cbn. now destruct s.
Qed.

Lemma search_Chr (c : ascii) (s : string) (pos : nat) :
  match search false (Chr c) s pos with
  | None => count_char c s = 0
  | Some m =>
      m_text m = String c ""
      /\ count_char c s = S (count_char c (m_rest m))
      /\ String.length (m_rest m) < String.length s
  end.
Proof.
  revert pos. induction s as [|x s IH]; intros pos; [reflexivity|].
  cbn [search match_here rmatch]. unfold chr_matches.
  destruct (Ascii.eqb_spec c x) as [->|Hne].
  - cbn [m_text m_rest count_char]. rewrite consumed_one, Ascii.eqb_refl.
    split; [reflexivity|]. split; [reflexivity|]. cbn [String.length]. lia.
  - specialize (IH (S pos)). cbn [count_char].
    assert (Ascii.eqb x c = false) as ->
        by (apply Ascii.eqb_neq; congruence).
    destruct (search false (Chr c) s (S pos)) as [m|]; [|exact IH].
    destruct IH as (Ht & Hc & Hl).
    split; [assumption|]. split; [assumption|]. cbn [String.length]. lia.
Qed.

Lemma match_all_Chr (c : ascii) (fuel : nat) :
  forall (s : string) (pos : nat),
    String.length s < fuel ->
    List.length (match_all_from fuel false (Chr c) s pos) = count_char c s.
Proof.
  induction fuel as [|fuel IH]; intros s pos Hf; [lia|].
  cbn [match_all_from]. pose proof (search_Chr c s pos) as Hs.
  destruct (search false (Chr c) s pos) as [m|]; [|now rewrite Hs].
  destruct Hs as (Ht & Hc & Hl). rewrite Ht, Hc.
  cbn [List.length]. f_equal. apply IH. lia.
Qed.

(** [(code.match(/\{/g) || []).length] is the number of braces. *)
Lemma match_count_Chr (c : ascii) (s : string) :
  match_count (Chr c) s = count_char c s.
Proof. unfold match_count, match_all. apply match_all_Chr. lia. Qed.

(** *** Blank strings *)

Lemma trimEnd_blank (c : ascii) (s : string) :
  is_space c = false -> trimEnd s = "" -> count_char c s = 0.
Proof.
  intros Hc. induction s as [|x s IH]; [reflexivity|].
  cbn [trimEnd count_char].
  destruct (trimEnd s); [|discriminate].
  destruct (is_space x) eqn:Hx; [|discriminate].
  intros _. rewrite IH by reflexivity.
  destruct (Ascii.eqb_spec x c); [congruence|reflexivity].
Qed.

Lemma trimStart_count (c : ascii) (s : string) :
  is_space c = false -> count_char c (trimStart s) = count_char c s.
Proof.
  intros Hc. induction s as [|x s IH]; [reflexivity|].
  cbn [trimStart]. destruct (is_space x) eqn:Hx; [|reflexivity].
  cbn [count_char]. rewrite IH.
  destruct (Ascii.eqb_spec x c); [congruence|reflexivity].
Qed.

Lemma blank_has_no (c : ascii) (s : string) :
  is_space c = false -> truthy (trim s) = false -> count_char c s = 0.
Proof.
  intros Hc Ht. rewrite <- (trimStart_count c s Hc).
  apply trimEnd_blank; [assumption|].
  unfold trim in Ht. now destruct (trimEnd (trimStart s)).
Qed.

Lemma unbalanced_not_blank (code : string) :
  count_char "{" code <> count_char "}" code -> truthy (trim code) = true.
Proof.
  intros H. destruct (truthy (trim code)) eqn:Ht; [reflexivity|].
  rewrite (blank_has_no "{" code), (blank_has_no "}" code) in H
    by (assumption || reflexivity).
  congruence.
Qed.

(** ** The Fibonacci helper *)

Section Fibonacci.
Local Open Scope Z_scope.

Lemma Fib_step (n : nat) : Fib (S (S n)) = Fib n + Fib (S n).
Proof. reflexivity. Qed.

Lemma Fib_nonneg (n : nat) : 0 <= Fib n /\ 0 <= Fib (S n).
Proof.
  induction n as [|n [IH1 IH2]]; [simpl; lia|].
  split; [exact IH2|]. rewrite Fib_step. lia.
Qed.

Lemma Fib_le_succ (n : nat) : Fib n <= Fib (S n).
Proof.
  destruct n as [|n]; [simpl; lia|].
  rewrite Fib_step. pose proof (Fib_nonneg n). lia.
Qed.

Lemma Fib_mono (m n : nat) : (m <= n)%nat -> Fib m <= Fib n.
Proof.
  induction 1 as [|n _ IH]; [lia|].
  pose proof (Fib_le_succ n). lia.
Qed.

Lemma fib_pairs_spec (n : nat) : fib_pairs n = (Fib n, Fib (S n)).
Proof.
  induction n as [|n IH]; [reflexivity|].
  unfold fib_pairs in *. simpl Nat.iter. rewrite IH.
  cbn [fst snd]. now rewrite Fib_step.
Qed.

Lemma Fib_from_pairs (n : nat) (a b : Z) :
  fib_pairs n = (a, b) -> Fib n = a /\ Fib (S n) = b.
Proof.
  rewrite fib_pairs_spec. intros H. now inversion H.
Qed.

Lemma Fib_78_79 : Fib 78 = 8944394323791464 /\ Fib 79 = 14472334024676221.
Proof. apply Fib_from_pairs. vm_compute. reflexivity. Qed.

Lemma Fib_78 : Fib 78 = 8944394323791464.
Proof. exact (proj1 Fib_78_79). Qed.

Lemma Fib_safe (n : nat) : (n <= 78)%nat -> 0 <= Fib n < 2 ^ 53.
Proof.
  intros H. pose proof (Fib_mono n 78 H) as Hm. rewrite Fib_78 in Hm.
  pose proof (Fib_nonneg n). split; [lia|].
  eapply Z.le_lt_trans; [exact Hm|]. vm_compute. reflexivity.
Qed.

Lemma round_double_exact (z : Z) : z < 2 ^ 53 -> JsNumber.round_double z = Num z.
Proof.
  intros H. unfold JsNumber.round_double.
  destruct (Z.ltb_spec z (2 ^ 53)); [reflexivity|lia].
Qed.

(** While every sum stays below 2^53 the loop computes the recurrence. *)
Lemma fib_loop_exact (n : nat) :
  (n <= 78)%nat ->
  forall (fuel i : nat),
    (2 <= i)%nat -> (i <= S n)%nat -> (S n - i <= fuel)%nat ->
    fib_loop fuel (Num (Z.of_nat n)) (Num (Z.of_nat i))
             (Num (Fib (i - 2))) (Num (Fib (i - 1)))
    = Some (Num (Fib n)).
Proof.
  intros Hn fuel. induction fuel as [|fuel IH]; intros i H2 Hi Hf.
  - assert (i = S n) by lia. subst i. cbn [fib_loop JsNumber.leb].
    destruct (Z.leb_spec (Z.of_nat (S n)) (Z.of_nat n)); [lia|].
    now replace (S n - 1)%nat with n by lia.
  - cbn [fib_loop JsNumber.leb].
    destruct (Z.leb_spec (Z.of_nat i) (Z.of_nat n)) as [Hle|Hgt].
    + cbn [JsNumber.add].
      rewrite round_double_exact
        by (apply Z.le_lt_trans with 79; [lia | vm_compute; reflexivity]).
      replace (Fib (i - 2) + Fib (i - 1)) with (Fib i)
        by (replace i with (S (S (i - 2))) at 1 by lia;
            rewrite Fib_step; do 2 f_equal; lia).
      rewrite round_double_exact by (apply Fib_safe; lia).
      replace (Z.of_nat i + 1) with (Z.of_nat (S i)) by lia.
      replace (Fib (i - 1)) with (Fib (S i - 2)) by (f_equal; lia).
      replace (Fib i) with (Fib (S i - 1)) at 1 by (f_equal; lia).
      apply IH; lia.
    + assert (i = S n) by lia. subst i.
      now replace (S n - 1)%nat with n by lia.
Qed.

Lemma calculateFibonacci_exact (n : Z) :
  n <= 78 -> calculateFibonacci (Num n) = Some (Num (fibonacci_number n)).
Proof.
  intros Hn. unfold calculateFibonacci, fibonacci_number.
  destruct (Z.leb_spec n 0) as [|Hpos]; [reflexivity|].
  destruct (Z.eqb_spec n 1) as [->|Hne]; [reflexivity|].
  pose proof (fib_loop_exact (Z.to_nat n) ltac:(lia) (Z.to_nat n) 2
                ltac:(lia) ltac:(lia) ltac:(lia)) as H.
  rewrite Z2Nat.id in H by lia. exact H.
Qed.

Lemma two_53 : 2 ^ 53 = 9007199254740992.
Proof. reflexivity. Qed.

Lemma round_double_exact_le (z : Z) :
  z <= 2 ^ 53 -> JsNumber.round_double z = Num z.
Proof.
  intros H. destruct (Z.eq_dec z (2 ^ 53)) as [->|Hne].
  - vm_compute. reflexivity.
  - apply round_double_exact. lia.
Qed.

(** From 2^53 on, [i++] leaves [i] at 2^53 and the loop has no exit. *)
Lemma fib_loop_stuck (n : Z) :
  2 ^ 53 <= n ->
  forall (fuel : nat) (i : Z) (a b : number),
    i <= 2 ^ 53 -> fib_loop fuel (Num n) (Num i) a b = None.
Proof.
  intros Hn fuel. induction fuel as [|fuel IH]; intros i a b Hi;
    cbn [fib_loop JsNumber.leb];
    (destruct (Z.leb_spec i n); [|lia]); [reflexivity|].
  cbn [JsNumber.add].
  destruct (Z.eq_dec i (2 ^ 53)) as [->|Hne].
  - replace (JsNumber.round_double (2 ^ 53 + 1)) with (Num (2 ^ 53))
      by (vm_compute; reflexivity).
    apply IH. lia.
  - destruct (Z.eq_dec (i + 1) (2 ^ 53)) as [->|Hne'].
    + replace (JsNumber.round_double (2 ^ 53)) with (Num (2 ^ 53))
        by (vm_compute; reflexivity).
      apply IH. lia.
    + rewrite round_double_exact by lia. apply IH. lia.
Qed.

Lemma calculateFibonacci_never_returns (n : Z) :
  2 ^ 53 <= n -> calculateFibonacci (Num n) = None.
Proof.
  intros Hn. unfold calculateFibonacci. pose proof two_53 as H53.
  destruct (Z.leb_spec n 0); [lia|].
  destruct (Z.eqb_spec n 1); [lia|].
  apply fib_loop_stuck; lia.
Qed.

(** Below 2^53 the loop ends within the fuel [calculateFibonacci] gives it. *)
Lemma fib_loop_exits (n : Z) :
  n < 2 ^ 53 ->
  forall (fuel : nat) (i : Z) (a b : number),
    0 <= i -> n + 1 - i <= Z.of_nat fuel ->
    exists v, fib_loop fuel (Num n) (Num i) a b = Some v.
Proof.
  intros Hn fuel. induction fuel as [|fuel IH]; intros i a b H0 Hf;
    cbn [fib_loop JsNumber.leb]; destruct (Z.leb_spec i n); try lia;
    try (eexists; reflexivity).
  cbn [JsNumber.add]. rewrite round_double_exact_le by lia.
  apply IH; lia.
Qed.

Lemma calculateFibonacci_returns (n : Z) :
  n < 2 ^ 53 -> exists v, calculateFibonacci (Num n) = Some v.
Proof.
  intros Hn. unfold calculateFibonacci.
  destruct (Z.leb_spec n 0); [eexists; reflexivity|].
  destruct (Z.eqb_spec n 1); [eexists; reflexivity|].
  apply fib_loop_exits; lia.
Qed.

End Fibonacci.

(** ** The execution coordinator *)

(** A snippet that is not blank is executed: the result is the validator's
    diagnostic, or the synthesized output, after the delay; the timer of
    [timeoutPromise] never comes first. *)
Lemma executeCode_runs (code : string) (language : ProgrammingLanguage) (w : World) :
  truthy (trim code) = true ->
  executeCode code language w =
  match detectSyntaxErrors code language with
  | Some syntaxError =>
      Some ({| status := error; output := syntaxError;
               executionTime := elapsed w |}, settled w)
  | None =>
      match simulateExecution code language with
      | Some out =>
          Some ({| status := success; output := out;
                   executionTime := elapsed w |}, settled w)
      | None => None
      end
  end.
Proof.
  intros Hcode. unfold executeCode. rewrite Hcode. cbn [negb].
  unfold executionPromise, bind, Math_random_1000, sleep, Date_now, ret, run.
  assert (Hrace : (now w + Z.max 0 (Z.min 800 (randoms w (drawn w) + 500))
                   <? now w + EXECUTION_TIMEOUT)%Z = true).
  { apply Z.ltb_lt. unfold EXECUTION_TIMEOUT. lia. }
  destruct (detectSyntaxErrors code language) as [e|]; cbn [now].
  - rewrite Hrace. reflexivity.
  - destruct (simulateExecution code language) as [out|]; [|reflexivity].
    cbn [now]. rewrite Hrace. reflexivity.
Qed.

Lemma executeCode_blank (code : string) (language : ProgrammingLanguage) (w : World) :
  truthy (trim code) = false ->
  executeCode code language w = Some (noCodeResult, w).
Proof.
  intros Hcode. unfold executeCode. rewrite Hcode. reflexivity.
Qed.

(** The timeout result is never the outcome of the race. *)
Lemma executeCode_status (code : string) (language : ProgrammingLanguage)
      (w w' : World) (r : ExecutionResult) :
  executeCode code language w = Some (r, w') ->
  status r = success \/ status r = error.
Proof.
  destruct (truthy (trim code)) eqn:Hcode.
  - rewrite executeCode_runs by assumption.
    destruct (detectSyntaxErrors code language);
      [|destruct (simulateExecution code language)];
      intros H; inversion H; subst; cbn; auto.
  - rewrite executeCode_blank by assumption.
    intros H; inversion H; subst; cbn; auto.
Qed.

(** *** Outputs under the four tags the service has rules for *)

Lemma truthy_append (a b : string) : truthy a = true -> truthy (a ++ b) = true.
Proof. now destruct a. Qed.

Lemma dec_truthy (z : Z) : truthy (JsNumber.dec z) = true.
Proof.
  unfold JsNumber.dec.
  assert (H : forall d, d <> Decimal.Nil ->
                        truthy (NilEmpty.string_of_uint d) = true)
    by (intros [| | | | | | | | | |]; intros; (congruence || reflexivity)).
  destruct z as [|p|p]; cbn; [reflexivity | | reflexivity].
  apply H, DecimalPos.Unsigned.to_uint_nonnil.
Qed.

Lemma toString_truthy (x : number) : truthy (JsNumber.toString x) = true.
Proof.
  destruct x as [z|]; [|reflexivity]. unfold JsNumber.toString.
  destruct (z <? 0)%Z; [reflexivity|]. unfold JsNumber.toString_nonneg.
  destruct (z <? 2 ^ 53)%Z; [apply dec_truthy|].
  destruct (JsNumber.shortest z) as [[s k] n].
  pose proof (dec_truthy s) as Hs.
  destruct (n <=? 21)%Z; [now apply truthy_append|].
  destruct (JsNumber.dec s) as [|d [|e rest]]; [discriminate | reflexivity..].
Qed.

(** Every diagnostic is a non-empty string: [if (syntaxError)] tests for
    [null]. *)
Lemma diagnostics_are_not_empty (code : string) (language : ProgrammingLanguage)
      (e : string) :
  detectSyntaxErrors code language = Some e -> truthy e = true.
Proof.
  unfold detectSyntaxErrors.
  repeat match goal with
         | |- context [if ?b then _ else _] => destruct b
         | |- context [match ?l with javascript => _ | _ => _ end] => destruct l
         end;
    intros H; inversion H; reflexivity.
Qed.

Lemma simulateFibonacci_truthy (code : string) (language : ProgrammingLanguage)
      (out : string) :
  simulateFibonacci code language = Some out -> truthy out = true.
Proof.
  unfold simulateFibonacci.
  destruct (calculateFibonacci (fibonacci_argument code)); [|discriminate].
  destruct (prints code language); intros H; inversion H;
    [apply toString_truthy | reflexivity].
Qed.

(** Under python, java, cpp and c the synthesized output is never empty. *)
Lemma simulateExecution_truthy (code : string) (language : ProgrammingLanguage)
      (out : string) :
  language <> javascript ->
  simulateExecution code language = Some out -> truthy out = true.
Proof.
  intros Hl. unfold simulateExecution.
  destruct (hasInputStatements code language).
  { intros H; inversion H. unfold simulateInputExecution, simulated_input.
    destruct language; try congruence;
      repeat match goal with
             | |- context [if ?b then _ else _] => destruct b
             end; reflexivity. }
  destruct (extractPrintStatements code language) as [printOutput|]; [|discriminate].
  destruct (truthy printOutput && truthy (trim printOutput)) eqn:Hp.
  { intros H; inversion H; subst. now apply andb_true_iff in Hp. }
  destruct (isFibonacci code language); [apply simulateFibonacci_truthy|].
  repeat match goal with
         | |- context [if ?b then _ else _] => destruct b
         end;
    intros H; inversion H; destruct language; try congruence; reflexivity.
Qed.

(** With those four tags every result carries a non-empty output. *)
Lemma engine_languages_have_output
      (code : string) (language : ProgrammingLanguage) (w w' : World)
      (r : ExecutionResult) :
  language <> javascript ->
  executeCode code language w = Some (r, w') -> truthy (output r) = true.
Proof.
  intros Hl. destruct (truthy (trim code)) eqn:Hcode.
  - rewrite executeCode_runs by assumption.
    destruct (detectSyntaxErrors code language) as [e|] eqn:He.
    + intros H; inversion H; subst; cbn [output].
      now apply diagnostics_are_not_empty in He.
    + destruct (simulateExecution code language) as [out|] eqn:Ho; [|discriminate].
      intros H; inversion H; subst; cbn [output].
      now apply simulateExecution_truthy in Ho.
  - rewrite executeCode_blank by assumption.
    intros H; inversion H; subst. reflexivity.
Qed.

(** ** Execution: blank snippets, Fibonacci, braces, the timeout *)

(** C7.  For every snippet that is empty or only whitespace, [executeCode]
    resolves at once (no timer is set, no random number drawn, the clock is
    where it was) to the fixed result: status 'error', the message
    'No code provided for execution.', and an elapsed time of 10; neither
    the validator nor the classifier nor the synthesizer has a part in it,
    whatever the language tag. *)
Theorem blank_snippet_is_rejected_at_once
        (code : string) (language : ProgrammingLanguage) (w : World) :
  trim code = "" ->
  executeCode code language w
  = Some ({| status := error;
             output := "No code provided for execution.";
             executionTime := Some 10%Z |}, w).
Proof.
  intros H. apply executeCode_blank. now rewrite H.
Qed.

Lemma blank_snippet_is_rejected_at_once_witness :
  trim ("  " ++ nl ++ chr 9) = ""
  /\ executeCode ("  " ++ nl ++ chr 9) python world0
     = Some ({| status := error;
                output := "No code provided for execution.";
                executionTime := Some 10%Z |}, world0).
Proof.
  assert (H : trim ("  " ++ nl ++ chr 9) = "") by (vm_compute; reflexivity).
  split; [exact H|].
  exact (blank_snippet_is_rejected_at_once ("  " ++ nl ++ chr 9) python world0 H).
Defined.

Lemma simulateFibonacci_report (code : string) (language : ProgrammingLanguage)
      (n : Z) :
  (n <= 78)%Z ->
  fibonacci_argument code = Num n ->
  simulateFibonacci code language
  = Some (fibonacci_report code language (Num n) (Num (fibonacci_number n))).
Proof.
  intros Hn Harg. unfold simulateFibonacci, fibonacci_report.
  rewrite Harg, (calculateFibonacci_exact n Hn).
  destruct (prints code language); reflexivity.
Qed.

(** When the Fibonacci detector is the one that wins, the output is the
    one [simulateFibonacci] builds. *)
Lemma simulateExecution_fibonacci (code : string) (language : ProgrammingLanguage)
      (printOutput : string) :
  hasInputStatements code language = false ->
  extractPrintStatements code language = Some printOutput ->
  truthy printOutput && truthy (trim printOutput) = false ->
  isFibonacci code language = true ->
  simulateExecution code language = simulateFibonacci code language.
Proof.
  intros Hin Hpr Hempty Hfib. unfold simulateExecution.
  now rewrite Hin, Hpr, Hempty, Hfib.
Qed.

(** Sums above 2^53 are rounded, so that [calculateFibonacci(79)] is
    14472334024676220 while Fib(79) is 14472334024676221: the helper is
    exact up to n = 78 and no further. *)
Lemma calculateFibonacci_79_is_rounded :
  calculateFibonacci (Num 79) = Some (Num 14472334024676220)
  /\ fibonacci_number 79 = 14472334024676221%Z
  /\ calculateFibonacci (Num 79) <> Some (Num (fibonacci_number 79)).
Proof.
  assert (H79 : fibonacci_number 79 = 14472334024676221%Z).
  { unfold fibonacci_number. cbn [Z.leb Z.compare].
    replace (Z.to_nat 79) with 79 by reflexivity.
    exact (proj2 Fib_78_79). }
  assert (Hc : calculateFibonacci (Num 79) = Some (Num 14472334024676220)).
  { vm_compute. reflexivity. }
  split; [exact Hc|]. split; [exact H79|].
  rewrite Hc, H79. discriminate.
Qed.

(** The print extraction comes before the Fibonacci detector: what it
    finds, when it is not blank, is the output, whatever the shape of the
    snippet. *)
Lemma print_extraction_comes_first
      (code : string) (language : ProgrammingLanguage) (w : World)
      (printOutput : string) :
  truthy (trim code) = true ->
  detectSyntaxErrors code language = None ->
  hasInputStatements code language = false ->
  extractPrintStatements code language = Some printOutput ->
  truthy printOutput && truthy (trim printOutput) = true ->
  executeCode code language w
  = Some ({| status := success; output := printOutput;
             executionTime := elapsed w |}, settled w).
Proof.
  intros Hcode Hsyn Hin Hpr Hout.
  rewrite executeCode_runs by assumption. rewrite Hsyn.
  unfold simulateExecution. now rewrite Hin, Hpr, Hout.
Qed.

(** C1: the Java and C++ samples of the editor are recognized as the
    Fibonacci shape and contain the call fibonacci(10), for which
    [simulateFibonacci] computes 55 with the iterative helper; but
    [executeCode] does not get there.  The print extraction runs first,
    and its Java and C++ arms take the text of the call for what is
    printed: the outputs are 'fibonacci(10' and 'Variable fibonacci: 42',
    not 55.  The Python sample gets 55 and the JavaScript sample the
    labelled 55: nothing is extracted from them, and the Fibonacci
    synthesizer is reached. *)
Theorem fibonacci_samples_are_echoed (w : World) :
  (isFibonacci (template java) java = true
   /\ includes (template java) "fibonacci(10)" = true
   /\ extractPrintStatements (template java) java = Some "fibonacci(10"
   /\ simulateFibonacci (template java) java = Some "55"
   /\ executeCode (template java) java w
      = Some ({| status := success; output := "fibonacci(10";
                 executionTime := elapsed w |}, settled w))
  /\ (isFibonacci (template cpp) cpp = true
      /\ includes (template cpp) "fibonacci(10)" = true
      /\ extractPrintStatements (template cpp) cpp = Some "Variable fibonacci: 42"
      /\ simulateFibonacci (template cpp) cpp = Some "55"
      /\ executeCode (template cpp) cpp w
         = Some ({| status := success; output := "Variable fibonacci: 42";
                    executionTime := elapsed w |}, settled w))
  /\ (extractPrintStatements (template python) python = Some ""
      /\ executeCode (template python) python w
         = Some ({| status := success; output := "55";
                    executionTime := elapsed w |}, settled w))
  /\ (extractPrintStatements (template javascript) javascript = Some ""
      /\ executeCode (template javascript) javascript w
         = Some ({| status := success;
                    output := "Input: n = 10" ++ nl ++ "Fibonacci(10) = 55";
                    executionTime := elapsed w |}, settled w)).
Proof.
  assert (Hjava : extractPrintStatements (template java) java
                  = Some "fibonacci(10") by (vm_compute; reflexivity).
  assert (Hcpp : extractPrintStatements (template cpp) cpp
                 = Some "Variable fibonacci: 42") by (vm_compute; reflexivity).
  assert (Hpy : extractPrintStatements (template python) python = Some "")
    by (vm_compute; reflexivity).
  assert (Hjs : extractPrintStatements (template javascript) javascript = Some "")
    by (vm_compute; reflexivity).
  split; [|split; [|split]].
  - split; [vm_compute; reflexivity|]. split; [vm_compute; reflexivity|].
    split; [exact Hjava|]. split; [vm_compute; reflexivity|].
    apply (print_extraction_comes_first _ java w _); try exact Hjava;
      vm_compute; reflexivity.
  - split; [vm_compute; reflexivity|]. split; [vm_compute; reflexivity|].
    split; [exact Hcpp|]. split; [vm_compute; reflexivity|].
    apply (print_extraction_comes_first _ cpp w _); try exact Hcpp;
      vm_compute; reflexivity.
  - split; [exact Hpy|].
    rewrite executeCode_runs by (vm_compute; reflexivity).
    replace (detectSyntaxErrors (template python) python) with (@None string)
      by (vm_compute; reflexivity).
    rewrite (simulateExecution_fibonacci _ python "" )
      by (exact Hpy || (vm_compute; reflexivity)).
    replace (simulateFibonacci (template python) python) with (Some "55")
      by (vm_compute; reflexivity).
    reflexivity.
  - split; [exact Hjs|].
    rewrite executeCode_runs by (vm_compute; reflexivity).
    replace (detectSyntaxErrors (template javascript) javascript)
      with (@None string) by (vm_compute; reflexivity).
    rewrite (simulateExecution_fibonacci _ javascript "")
      by (exact Hjs || (vm_compute; reflexivity)).
    replace (simulateFibonacci (template javascript) javascript)
      with (Some ("Input: n = 10" ++ nl ++ "Fibonacci(10) = 55"))
      by (vm_compute; reflexivity).
    reflexivity.
Qed.

(** C2: a bubble-sort snippet under the selector's default tag
    'javascript' is reported as a success whose output is the empty
    string: [simulateBubbleSort] has no branch for that tag and no
    fallback (its siblings [simulateSelectionSort], [simulateArrayOutput]
    and [getDefaultOutput] have one). *)
Theorem javascript_bubble_sort_has_empty_output (w : World) :
  executeCode javascriptBubbleSort javascript w
  = Some ({| status := success; output := ""; executionTime := elapsed w |},
          settled w).
Proof.
  rewrite executeCode_runs by (vm_compute; reflexivity).
  replace (simulateExecution javascriptBubbleSort javascript) with (Some "")
    by (vm_compute; reflexivity).
  reflexivity.
Qed.

Lemma detectSyntaxErrors_unbalanced (code : string) (language : ProgrammingLanguage) :
  language = java \/ language = cpp \/ language = c ->
  count_char "{" code <> count_char "}" code ->
  detectSyntaxErrors code language
  = Some (if infinite_loop_suspected code language then infiniteLoopDiagnostic
          else "error: mismatched curly braces").
Proof.
  intros Hl Hb. unfold detectSyntaxErrors.
  destruct (infinite_loop_suspected code language); [reflexivity|].
  apply Nat.eqb_neq in Hb.
  destruct Hl as [->|[->| ->]]; rewrite !match_count_Chr, Hb; reflexivity.
Qed.

(** C3, as the code has it: the infinite-loop check comes before the brace
    check, so an unbalanced snippet with a [while (true)] and no [break] gets
    the infinite-loop diagnostic. *)
Lemma unbalanced_endless_loop_diagnostic :
  count_char "{" javaEndlessLoop <> count_char "}" javaEndlessLoop
  /\ option_map output (value (executeCode javaEndlessLoop java world0))
     = Some infiniteLoopDiagnostic
  /\ option_map output (value (executeCode javaEndlessLoop java world0))
     <> Some "error: mismatched curly braces".
Proof.
  assert (H : option_map output (value (executeCode javaEndlessLoop java world0))
              = Some infiniteLoopDiagnostic) by (vm_compute; reflexivity).
  split; [vm_compute; discriminate|]. split; [exact H|].
  rewrite H. discriminate.
Qed.

(** C3 (amended).  For every snippet whose count of opening braces differs
    from its count of closing braces, under java, cpp or c, [executeCode]
    returns a result with status 'error'; its output is
    'error: mismatched curly braces' unless the snippet has a
    [while (true)] and no 'break', in which case it is the infinite-loop
    diagnostic. *)
Theorem unbalanced_braces_are_an_error
        (code : string) (language : ProgrammingLanguage) (w : World) :
  language = java \/ language = cpp \/ language = c ->
  count_char "{" code <> count_char "}" code ->
  executeCode code language w
  = Some ({| status := error;
             output := if infinite_loop_suspected code language
                       then infiniteLoopDiagnostic
                       else "error: mismatched curly braces";
             executionTime := elapsed w |}, settled w).
Proof.
  intros Hl Hb.
  rewrite executeCode_runs by now apply unbalanced_not_blank.
  now rewrite detectSyntaxErrors_unbalanced.
Qed.

Lemma unbalanced_braces_are_an_error_witness :
  count_char "{" "int main() {" <> count_char "}" "int main() {"
  /\ option_map output (value (executeCode "int main() {" c world0))
     = Some "error: mismatched curly braces".
Proof.
  assert (Hb : count_char "{" "int main() {" <> count_char "}" "int main() {")
    by (vm_compute; discriminate).
  split; [exact Hb|].
  rewrite (unbalanced_braces_are_an_error "int main() {" c world0
             (or_intror (or_intror eq_refl)) Hb).
  vm_compute. reflexivity.
Defined.

Lemma endless_fibonacci_never_returns :
  simulateExecution pythonEndlessFibonacci python = None.
Proof.
  assert (Harg : fibonacci_argument pythonEndlessFibonacci
                 = Num 9007199254740992) by (vm_compute; reflexivity).
  assert (Hsim : simulateFibonacci pythonEndlessFibonacci python = None).
  { unfold simulateFibonacci. rewrite Harg.
    rewrite calculateFibonacci_never_returns; [reflexivity|].
    rewrite two_53. lia. }
  unfold simulateExecution.
  replace (hasInputStatements pythonEndlessFibonacci python) with false
    by (vm_compute; reflexivity).
  replace (extractPrintStatements pythonEndlessFibonacci python) with (Some "")
    by (vm_compute; reflexivity).
  replace (isFibonacci pythonEndlessFibonacci python) with true
    by (vm_compute; reflexivity).
  exact Hsim.
Qed.

(** C8: the work on this snippet never completes ([parseInt] gives 2^53,
    where the loop of [calculateFibonacci] stops advancing), and
    [executeCode] resolves to nothing at all: the loop runs inside the
    execution promise and the timer of [timeoutPromise] is never served,
    so no 'timeout' result is produced. *)
Theorem endless_work_is_never_timed_out (w : World) :
  simulateExecution pythonEndlessFibonacci python = None
  /\ executeCode pythonEndlessFibonacci python w = None.
Proof.
  split; [exact endless_fibonacci_never_returns|].
  rewrite executeCode_runs by (vm_compute; reflexivity).
  replace (detectSyntaxErrors pythonEndlessFibonacci python) with (@None string)
    by (vm_compute; reflexivity).
  now rewrite endless_fibonacci_never_returns.
Qed.

(** ** The complexity classifier *)

Lemma analyzeComplexity_value (code : string) (language : ProgrammingLanguage)
      (w : World) :
  value (analyzeComplexity code language w) = Some (classify code language).
Proof. reflexivity. Qed.




(** C5.  A snippet that matches both the Fibonacci shape and the
    nested-loop shape is classified by the Fibonacci rule: O(2^n) time in
    all three cases and O(n) space, never the nested-loop profile. *)
Theorem fibonacci_rule_comes_first
        (code : string) (language : ProgrammingLanguage) (w : World) :
  hasFibonacci code language = true ->
  isNestedLoops code = true ->
  value (analyzeComplexity code language w)
  = Some {| timeComplexity := {| best := "O(2^n)"; average := "O(2^n)";
                                 worst := "O(2^n)" |};
            spaceComplexity := "O(n)";
            analysis := analysis fibonacciProfile |}
  /\ value (analyzeComplexity code language w) <> Some nestedLoopsProfile.
Proof.
  intros Hfib Hnested. rewrite analyzeComplexity_value. unfold classify.
  rewrite Hfib. split; [reflexivity|].
  intros H. inversion H.
Qed.

Lemma fibonacci_rule_comes_first_witness :
  hasFibonacci memoizedFibonacciWithLoops cpp = true
  /\ isNestedLoops memoizedFibonacciWithLoops = true
  /\ option_map spaceComplexity
       (value (analyzeComplexity memoizedFibonacciWithLoops cpp world0))
     = Some "O(n)".
Proof.
  assert (Hfib : hasFibonacci memoizedFibonacciWithLoops cpp = true)
    by (vm_compute; reflexivity).
  assert (Hnested : isNestedLoops memoizedFibonacciWithLoops = true)
    by (vm_compute; reflexivity).
  split; [exact Hfib|]. split; [exact Hnested|].
  destruct (fibonacci_rule_comes_first memoizedFibonacciWithLoops cpp world0
              Hfib Hnested) as [H _].
  rewrite H. reflexivity.
Defined.

Lemma classify_ordered (code : string) (language : ProgrammingLanguage) :
  ordered (classify code language).
Proof.
  unfold classify.
  destruct (hasFibonacci code language); [vm_compute; lia|].
  destruct (hasDynamicProgramming code); [vm_compute; lia|].
  destruct (hasBinarySearch code); [vm_compute; lia|].
  destruct (hasDivideAndConquer code); [vm_compute; lia|].
  destruct (hasGreedy code); [vm_compute; lia|].
  destruct (isNestedLoops code); [vm_compute; lia|].
  destruct (hasLoop code); vm_compute; lia.
Qed.

Lemma Rev2_classify_ordered (code : string) (language : ProgrammingLanguage) :
  ordered (Rev2.classify code language).
Proof.
  unfold Rev2.classify.
  destruct (Rev2.hasFibonacci_complexity code); [vm_compute; lia|].
  destruct (Rev2.hasNestedLoop code); [vm_compute; lia|].
  destruct (Rev2.hasLoop code); vm_compute; lia.
Qed.

Lemma Rev1_classify_ordered (code : string) (language : ProgrammingLanguage) :
  ordered (Rev1.classify code language).
Proof.
  unfold Rev1.classify. destruct (Rev1.hasFibonacci code); vm_compute; lia.
Qed.

(** C6.  For every snippet and language tag, the profile returned by
    [analyzeComplexity] (in each of the three revisions) has
    best <= average <= worst in the order
    O(1) < O(log n) < O(n) < O(n log n) < O(n^2) < O(2^n). *)
Theorem time_classes_are_ordered
        (code : string) (language : ProgrammingLanguage) (w : World) :
  (exists p, value (analyzeComplexity code language w) = Some p /\ ordered p)
  /\ (exists p, value (Rev2.analyzeComplexity code language w) = Some p
                /\ ordered p)
  /\ (exists p, value (Rev1.analyzeComplexity code language w) = Some p
                /\ ordered p).
Proof.
  split; [|split]; eexists; (split; [reflexivity|]).
  - apply classify_ordered.
  - apply Rev2_classify_ordered.
  - apply Rev1_classify_ordered.
Qed.

(** ** Determinism *)

(** The elapsed time of [executeCode] does depend on the world. *)
Lemma executeCode_time_varies :
  value (executeCode pythonFibonacci10 python world0)
  <> value (executeCode pythonFibonacci10 python
              {| now := 0%Z; randoms := fun _ => 100%Z; drawn := 0 |}).
Proof. vm_compute. discriminate. Qed.

(** C9.  [analyzeComplexity] and [getAIInsights] are deterministic: two
    calls with the same snippet and language, whatever the clock, the
    random source and the profile passed, resolve to the same profile and
    to the same list of insights, in the same order. *)
Theorem analysis_and_insights_are_deterministic
        (code : string) (language : ProgrammingLanguage)
        (p1 p2 : ComplexityData) (w1 w2 : World) :
  value (analyzeComplexity code language w1)
  = value (analyzeComplexity code language w2)
  /\ value (analyzeComplexity code language w1) = Some (classify code language)
  /\ value (getAIInsights code language p1 w1)
     = value (getAIInsights code language p2 w2)
  /\ value (getAIInsights code language p1 w1)
     = Some (collectInsights code language p1).
Proof. repeat split. Qed.

(** C10.  The list of insights does not depend on the [complexityData]
    argument, in the current revision and in the one before it. *)
Theorem insights_ignore_the_profile
        (code : string) (language : ProgrammingLanguage)
        (p1 p2 : ComplexityData) (w : World) :
  getAIInsights code language p1 w = getAIInsights code language p2 w
  /\ Rev2.getAIInsights code language p1 w
     = Rev2.getAIInsights code language p2 w.
Proof. split; reflexivity. Qed.

(** * Further properties *)

(** ** Outcomes of [executeCode] *)

Lemma prefix_count (c : ascii) :
  forall a s : string, prefix a s = true -> count_char c a <= count_char c s.
Proof.
  induction a as [|x a IH]; intros s H; [cbn; lia|].
  destruct s as [|y s]; cbn [prefix] in H; [discriminate|].
  destruct (ascii_dec x y) as [->|]; [|discriminate].
  cbn [count_char]. specialize (IH s H). lia.
Qed.

(** A string that includes [needle] has each of its units at least as
    often. *)
Lemma includes_count (c : ascii) (needle : string) :
  forall s : string,
    includes s needle = true -> count_char c needle <= count_char c s.
Proof.
  induction s as [|y s IH]; cbn [includes]; intros H.
  - rewrite orb_false_r in H. now apply prefix_count.
  - apply orb_true_iff in H. destruct H as [H|H].
    + now apply prefix_count.
    + specialize (IH H). cbn [count_char]. lia.
Qed.

(** A snippet that includes a word with a visible character is not blank. *)
Lemma includes_not_blank (c : ascii) (needle code : string) :
  is_space c = false -> 1 <= count_char c needle ->
  includes code needle = true -> truthy (trim code) = true.
Proof.
  intros Hc Hn Hin. destruct (truthy (trim code)) eqn:Ht; [reflexivity|].
  pose proof (includes_count c needle code Hin) as Hle.
  rewrite (blank_has_no c code Hc Ht) in Hle. lia.
Qed.

Lemma world0_runs_fibonacci :
  executeCode pythonFibonacci10 python world0
  = Some ({| status := success; output := "55"; executionTime := Some 750%Z |},
          settled world0).
Proof. vm_compute. reflexivity. Qed.

(** X1.  Whatever the snippet and the tag, a result of [executeCode] has
    status 'success' or 'error': the 'timeout' result of [timeoutPromise]
    and the status 'running' are never returned. *)
Theorem executeCode_never_reports_timeout
        (code : string) (language : ProgrammingLanguage) (w w' : World)
        (r : ExecutionResult) :
  executeCode code language w = Some (r, w') ->
  (status r = success \/ status r = error)
  /\ status r <> timeout /\ status r <> running /\ r <> timeoutResult.
Proof.
  intros H.
  assert (Hs : status r = success \/ status r = error).
  { destruct (truthy (trim code)) eqn:Hcode.
    - rewrite executeCode_runs in H by assumption.
      destruct (detectSyntaxErrors code language);
        [|destruct (simulateExecution code language)];
        inversion H; subst; cbn; auto.
    - rewrite executeCode_blank in H by assumption.
      inversion H; subst; cbn; auto. }
  split; [exact Hs|].
  repeat split; intros E; try rewrite E in Hs;
    (destruct Hs as [Hs|Hs]; cbn in Hs; discriminate).
Qed.

Lemma executeCode_never_reports_timeout_witness :
  executeCode pythonFibonacci10 python world0
  = Some ({| status := success; output := "55"; executionTime := Some 750%Z |},
          settled world0)
  /\ status {| status := success; output := "55"; executionTime := Some 750%Z |}
     <> timeout.
Proof.
  split; [exact world0_runs_fibonacci|].
  exact (proj1 (proj2 (executeCode_never_reports_timeout
                         pythonFibonacci10 python world0 (settled world0) _
                         world0_runs_fibonacci))).
Defined.

Lemma detectSyntaxErrors_validated (code : string) (language : ProgrammingLanguage) :
  detectSyntaxErrors code language = None ->
  infinite_loop_suspected code language = false /\ validated code language.
Proof.
  unfold detectSyntaxErrors.
  destruct (infinite_loop_suspected code language); [discriminate|].
  intros H. split; [reflexivity|].
  destruct language; cbn [validated]; [exact I| | | |].
  - destruct (includes code "print(" && negb (includes code ")")) eqn:H1;
      [discriminate|].
    destruct ((includes code "def " || includes code "if " || includes code "for ")
              && negb (includes code ":")) eqn:H2; [discriminate|].
    destruct (includes code "input(" && negb (includes code ")")) eqn:H3;
      [discriminate|].
    repeat split.
    + intros E. rewrite E in H1. now destruct (includes code ")").
    + intros E. destruct (includes code ":"); [reflexivity|].
      rewrite andb_true_r in H2. apply orb_false_iff in H2. destruct H2 as [H2 H2'].
      apply orb_false_iff in H2. destruct H2 as [H2a H2b].
      destruct E as [E|[E|E]]; congruence.
    + intros E. rewrite E in H3. now destruct (includes code ")").
  - rewrite !match_count_Chr in H.
    destruct (count_char "{" code =? count_char "}" code)%nat eqn:H1;
      [|discriminate]. cbn [negb] in H.
    destruct (includes code "class") eqn:H2; [|discriminate]. cbn [negb] in H.
    destruct (includes code "public static void main" && negb (includes code "{"))
             eqn:H3; [discriminate|].
    repeat split; [now apply Nat.eqb_eq|].
    intros E. rewrite E in H3. now destruct (includes code "{").
  - rewrite !match_count_Chr in H.
    destruct (count_char "{" code =? count_char "}" code)%nat eqn:H1;
      [|discriminate]. cbn [negb language_eqb andb] in H.
    destruct (includes code "cout" && negb (includes code "iostream")) eqn:H2;
      [discriminate|].
    destruct (includes code "main") eqn:H3; [|discriminate].
    repeat split; [now apply Nat.eqb_eq|].
    intros E. rewrite E in H2. now destruct (includes code "iostream").
  - rewrite !match_count_Chr in H.
    destruct (count_char "{" code =? count_char "}" code)%nat eqn:H1;
      [|discriminate]. cbn [negb language_eqb andb] in H.
    destruct (includes code "printf" && negb (includes code "stdio.h")) eqn:H2;
      [discriminate|].
    destruct (includes code "main") eqn:H3; [|discriminate].
    repeat split; [now apply Nat.eqb_eq|].
    intros E. rewrite E in H2. now destruct (includes code "stdio.h").
Qed.

(** X2.  A result with status 'success' means that the snippet is not
    blank and went through the validator: no endless loop is suspected and
    the checks of its language hold (balanced braces and a 'class' for
    java, balanced braces and a 'main' for cpp and c, headers for cout and
    printf, closed calls and a colon for python). *)
Theorem success_means_validated
        (code : string) (language : ProgrammingLanguage) (w w' : World)
        (r : ExecutionResult) :
  executeCode code language w = Some (r, w') ->
  status r = success ->
  truthy (trim code) = true
  /\ infinite_loop_suspected code language = false
  /\ validated code language
  /\ simulateExecution code language = Some (output r).
Proof.
  intros H Hs. destruct (truthy (trim code)) eqn:Hcode.
  - split; [reflexivity|].
    rewrite executeCode_runs in H by assumption.
    destruct (detectSyntaxErrors code language) as [e|] eqn:He.
    + inversion H; subst. discriminate.
    + apply detectSyntaxErrors_validated in He. destruct He as [Hl Hv].
      destruct (simulateExecution code language); [|discriminate].
      inversion H; subst. now repeat split.
  - rewrite executeCode_blank in H by assumption.
    inversion H; subst. discriminate.
Qed.

Lemma success_means_validated_witness :
  executeCode pythonFibonacci10 python world0
  = Some ({| status := success; output := "55"; executionTime := Some 750%Z |},
          settled world0)
  /\ validated pythonFibonacci10 python.
Proof.
  split; [exact world0_runs_fibonacci|].
  exact (proj1 (proj2 (proj2 (success_means_validated
                                pythonFibonacci10 python world0 (settled world0) _
                                world0_runs_fibonacci eq_refl)))).
Defined.

(** X3.  Under the tag 'javascript' nothing is validated: a snippet that
    is not blank is never rejected, whatever it contains. *)
Theorem javascript_is_never_rejected
        (code : string) (w w' : World) (r : ExecutionResult) :
  truthy (trim code) = true ->
  executeCode code javascript w = Some (r, w') ->
  status r = success /\ executionTime r = elapsed w /\ w' = settled w.
Proof.
  intros Hcode H. rewrite executeCode_runs in H by assumption.
  cbn [detectSyntaxErrors] in H.
  replace (infinite_loop_suspected code javascript) with false in H
    by (unfold infinite_loop_suspected; cbn [language_eqb andb orb]; reflexivity).
  destruct (simulateExecution code javascript); [|discriminate].
  inversion H; subst. now repeat split.
Qed.

Lemma javascript_is_never_rejected_witness :
  truthy (trim "while (true) {") = true
  /\ option_map status (value (executeCode "while (true) {" javascript world0))
     = Some success.
Proof.
  assert (Hc : truthy (trim "while (true) {") = true) by (vm_compute; reflexivity).
  assert (Hr : executeCode "while (true) {" javascript world0
               = Some ({| status := success;
                          output := "Program executed successfully." ++ nl
                                    ++ "Output: 42";
                          executionTime := Some 750%Z |}, settled world0))
    by (vm_compute; reflexivity).
  split; [exact Hc|].
  rewrite Hr. cbn [value option_map fst].
  now rewrite (proj1 (javascript_is_never_rejected _ _ _ _ Hc Hr)).
Defined.

Lemma bubble_sort_not_blank (code : string) (language : ProgrammingLanguage) :
  isBubbleSort code language = true -> truthy (trim code) = true.
Proof.
  unfold isBubbleSort. intros H. apply andb_true_iff in H. destruct H as [H _].
  apply Nat.leb_le in H.
  apply (includes_not_blank "f" "for"); [reflexivity | cbn; lia |].
  apply for_once. lia.
Qed.

Lemma simulateExecution_javascript (code : string) :
  simulateExecution code javascript
  = if isFibonacci code javascript then simulateFibonacci code javascript
    else if isBubbleSort code javascript then Some ""
    else if isSelectionSort code javascript then Some "Sorted array: 1 2 4 5 8"
    else if hasArrayOutput code javascript then Some "Array elements: 1 2 3 4 5"
    else if isFactorial code javascript then Some (simulateFactorial javascript)
    else if hasForLoop code then
      Some ("Loop executed successfully." ++ nl ++ "Output: 0 1 2 3 4")
    else if hasRecursion code then
      Some ("Recursive function executed." ++ nl ++ "Result: 55")
    else Some (getDefaultOutput javascript).
Proof. reflexivity. Qed.

(** X4.  The output of a result is empty in exactly one situation: the tag
    is 'javascript', the snippet has the bubble-sort shape and not the
    Fibonacci shape.  Under python, java, cpp and c, and for every other
    javascript snippet, the output is not empty. *)
Theorem output_is_empty_only_for_javascript_bubble_sort
        (code : string) (language : ProgrammingLanguage) (w w' : World)
        (r : ExecutionResult) :
  executeCode code language w = Some (r, w') ->
  (output r = ""
   <-> language = javascript
       /\ isFibonacci code language = false
       /\ isBubbleSort code language = true).
Proof.
  intros H.
  assert (Hne : forall s, truthy s = true -> s = "" -> False)
    by (intros s Hs ->; discriminate).
  destruct language;
    try (split;
         [ intros E; exfalso;
           apply (Hne (output r));
           [ refine (engine_languages_have_output _ _ _ _ _ _ H); discriminate
           | exact E]
         | intros (E & _); discriminate ]).
  destruct (truthy (trim code)) eqn:Hcode.
  - rewrite executeCode_runs in H by assumption.
    cbn [detectSyntaxErrors] in H.
    replace (infinite_loop_suspected code javascript) with false in H
      by (unfold infinite_loop_suspected; cbn [language_eqb andb orb]; reflexivity).
    rewrite simulateExecution_javascript in H.
    destruct (isFibonacci code javascript).
    + destruct (simulateFibonacci code javascript) as [out|] eqn:Ho; [|discriminate].
      inversion H; subst; cbn [output].
      apply simulateFibonacci_truthy in Ho.
      split; [intros E; exfalso; now apply (Hne out) | intros (_ & E & _); discriminate].
    + destruct (isBubbleSort code javascript).
      * inversion H; subst; cbn [output]. now repeat split.
      * repeat match type of H with
               | context [if ?b then _ else _] => destruct b
               end;
          inversion H; subst; cbn [output];
          (split; [intros E; vm_compute in E; discriminate
                  | intros (_ & _ & E); discriminate]).
  - rewrite executeCode_blank in H by assumption. inversion H; subst.
    split; [intros E; discriminate|].
    intros (_ & _ & E). apply bubble_sort_not_blank in E. congruence.
Qed.

Lemma output_is_empty_only_for_javascript_bubble_sort_witness :
  executeCode pythonFibonacci10 python world0
  = Some ({| status := success; output := "55"; executionTime := Some 750%Z |},
          settled world0)
  /\ ("55" = "" <-> python = javascript
                    /\ isFibonacci pythonFibonacci10 python = false
                    /\ isBubbleSort pythonFibonacci10 python = true).
Proof.
  split; [exact world0_runs_fibonacci|].
  exact (output_is_empty_only_for_javascript_bubble_sort
           pythonFibonacci10 python world0 (settled world0) _
           world0_runs_fibonacci).
Defined.

(** ** The detectors of [simulateExecution] *)

Lemma input_statements_not_blank (code : string) (language : ProgrammingLanguage) :
  hasInputStatements code language = true -> truthy (trim code) = true.
Proof.
  destruct language; cbn [hasInputStatements]; intros H; [discriminate| | | |].
  - apply (includes_not_blank "i" "input("); [reflexivity | cbn; lia | exact H].
  - apply andb_true_iff in H. destruct H as [H _].
    apply (includes_not_blank "S" "Scanner"); [reflexivity | cbn; lia | exact H].
  - apply (includes_not_blank "c" "cin >>"); [reflexivity | cbn; lia | exact H].
  - apply (includes_not_blank "s" "scanf"); [reflexivity | cbn; lia | exact H].
Qed.

(** X5.  The input detector comes first: a snippet with the input idiom of
    its language (input(, Scanner with .next, cin >>, scanf) that passes
    the validator gets the simulated-input narrative, which starts with
    'Simulated input: 42', whatever it prints and whatever shape it has. *)
Theorem input_idiom_wins
        (code : string) (language : ProgrammingLanguage) (w : World) :
  hasInputStatements code language = true ->
  detectSyntaxErrors code language = None ->
  executeCode code language w
  = Some ({| status := success;
             output := simulateInputExecution code language;
             executionTime := elapsed w |}, settled w)
  /\ startsWith (simulateInputExecution code language) "Simulated input: 42"
     = true.
Proof.
  intros Hin Hsyn. split.
  - rewrite executeCode_runs
      by exact (input_statements_not_blank code language Hin).
    rewrite Hsyn. unfold simulateExecution. now rewrite Hin.
  - unfold simulateInputExecution, simulated_input.
    destruct language; [discriminate|..];
      repeat match goal with
             | |- context [if ?b then _ else _] => destruct b
             end; reflexivity.
Qed.

Lemma input_idiom_wins_witness :
  hasInputStatements ("n = int(input())" ++ nl ++ "print(fibonacci(n-1) + fibonacci(n-2))") python = true
  /\ option_map output
       (value (executeCode ("n = int(input())" ++ nl ++ "print(fibonacci(n-1) + fibonacci(n-2))")
                 python world0))
     = Some ("Simulated input: 42" ++ nl ++ "Output: 42" ++ nl
             ++ "Calculated result: 84").
Proof.
  assert (Hin : hasInputStatements
                  ("n = int(input())" ++ nl ++ "print(fibonacci(n-1) + fibonacci(n-2))")
                  python = true) by (vm_compute; reflexivity).
  assert (Hsyn : detectSyntaxErrors
                   ("n = int(input())" ++ nl ++ "print(fibonacci(n-1) + fibonacci(n-2))")
                   python = None) by (vm_compute; reflexivity).
  split; [exact Hin|].
  rewrite (proj1 (input_idiom_wins _ python world0 Hin Hsyn)).
  vm_compute. reflexivity.
Defined.

(** ** The Fibonacci helper: where it stops being a number *)

(** X6.  [calculateFibonacci(n)] returns exactly when n < 2^53: from 2^53
    on (and for [Infinity], which [parseInt] gives for a literal of more
    than 308 digits) its loop never ends. *)
Theorem calculateFibonacci_returns_iff (n : Z) :
  ((exists v, calculateFibonacci (Num n) = Some v) <-> (n < 2 ^ 53)%Z)
  /\ calculateFibonacci Infinity = None.
Proof.
  split; [|reflexivity]. split.
  - intros [v Hv]. destruct (Z.lt_ge_cases n (2 ^ 53)) as [Hlt|Hge]; [exact Hlt|].
    rewrite calculateFibonacci_never_returns in Hv by exact Hge. discriminate.
  - apply calculateFibonacci_returns.
Qed.

Lemma fib_rounds_succ (k : nat) (a b : number) :
  fib_rounds (S k) (a, b) = fib_rounds k (b, JsNumber.add a b).
Proof. unfold fib_rounds. now rewrite Nat.iter_succ_r. Qed.

Lemma fib_rounds_last (k : nat) (p : number * number) :
  fib_rounds (S k) p
  = (snd (fib_rounds k p),
     JsNumber.add (fst (fib_rounds k p)) (snd (fib_rounds k p))).
Proof. reflexivity. Qed.

(** The first [k] rounds, as long as the counter stays at or below [n]. *)
Lemma fib_loop_unroll (n : Z) (k : nat) :
  forall (fuel : nat) (i : Z) (a b : number),
    (i + Z.of_nat k <= n + 1)%Z -> (i + Z.of_nat k <= 2 ^ 53)%Z ->
    fib_loop (k + fuel) (Num n) (Num i) a b
    = fib_loop fuel (Num n) (Num (i + Z.of_nat k))
               (fst (fib_rounds k (a, b))) (snd (fib_rounds k (a, b))).
Proof.
  induction k as [|k IH]; intros fuel i a b Hn H53.
  - cbn [Nat.add fib_rounds Nat.iter fst snd]. now rewrite Z.add_0_r.
  - cbn [Nat.add fib_loop JsNumber.leb].
    destruct (Z.leb_spec i n); [|lia].
    cbn [JsNumber.add]. rewrite round_double_exact_le by lia.
    rewrite IH by lia. rewrite fib_rounds_succ.
    now replace (i + 1 + Z.of_nat k)%Z with (i + Z.of_nat (S k))%Z by lia.
Qed.

(** Below 2^53 the loop is [n - 1] rounds on (0, 1). *)
Lemma calculateFibonacci_rounds (k : nat) :
  (Z.of_nat k + 2 <= 2 ^ 53)%Z ->
  calculateFibonacci (Num (Z.of_nat k + 1))
  = Some (snd (fib_rounds k (Num 0, Num 1))).
Proof.
  intros Hk. unfold calculateFibonacci.
  destruct (Z.leb_spec (Z.of_nat k + 1) 0); [lia|].
  destruct (Z.eqb_spec (Z.of_nat k + 1) 1) as [E|E].
  - assert (k = 0%nat) by lia. now subst k.
  - replace (Z.to_nat (Z.of_nat k + 1)) with (k + 1)%nat by lia.
    rewrite fib_loop_unroll by lia.
    cbn [fib_loop JsNumber.leb].
    destruct (Z.leb_spec (2 + Z.of_nat k) (Z.of_nat k + 1)); [lia|reflexivity].
Qed.

Lemma fib_rounds_before (k : nat) (p : number * number) (a b : number) :
  fib_rounds (S k) p = (a, b) -> snd (fib_rounds k p) = a.
Proof.
  rewrite fib_rounds_last. intros H. now inversion H.
Qed.

Lemma fib_rounds_stay_infinite (p : number * number) (k : nat) :
  snd (fib_rounds k p) = Infinity ->
  forall j : nat, snd (fib_rounds (j + k) p) = Infinity.
Proof.
  intros Hk j. induction j as [|j IH]; [exact Hk|].
  cbn [Nat.add]. rewrite fib_rounds_last. cbn [snd]. rewrite IH.
  now destruct (fst (fib_rounds (j + k) p)).
Qed.

Lemma fib_rounds_1476 :
  exists z : Z,
    fib_rounds 1476 (Num 0, Num 1) = (Num z, Infinity)
    /\ JsNumber.toString (Num z) = "1.3069892237633987e+308".
Proof.
  eexists. split; [vm_compute; reflexivity|]. vm_compute. reflexivity.
Qed.

(** X7.  From n = 1477 on (and below 2^53) the value of
    [calculateFibonacci(n)] is [Infinity]: the sums have left the range of
    a JavaScript number; n = 1476 is the last argument with a finite value,
    printed as 1.3069892237633987e+308. *)
Theorem calculateFibonacci_overflows (n : Z) :
  (1477 <= n)%Z -> (n < 2 ^ 53)%Z ->
  calculateFibonacci (Num n) = Some Infinity
  /\ option_map JsNumber.toString (calculateFibonacci (Num n)) = Some "Infinity"
  /\ option_map JsNumber.toString (calculateFibonacci (Num 1476))
     = Some "1.3069892237633987e+308".
Proof.
  intros Hlo Hhi. destruct fib_rounds_1476 as (z & Hz & Hstr).
  assert (H : calculateFibonacci (Num n) = Some Infinity).
  { pose proof two_53 as H53.
    replace n with (Z.of_nat (Z.to_nat (n - 1477) + 1476) + 1)%Z by lia.
    rewrite calculateFibonacci_rounds by lia.
    f_equal. apply fib_rounds_stay_infinite. now rewrite Hz. }
  split; [exact H|]. split; [now rewrite H|].
  replace 1476%Z with (Z.of_nat 1475 + 1)%Z by reflexivity.
  rewrite calculateFibonacci_rounds by (rewrite two_53; lia).
  rewrite (fib_rounds_before 1475 _ _ _ Hz).
  cbn [option_map]. now rewrite Hstr.
Qed.

Lemma calculateFibonacci_overflows_witness :
  (1477 <= 1477)%Z /\ (1477 < 2 ^ 53)%Z
  /\ calculateFibonacci (Num 1477) = Some Infinity.
Proof.
  assert (Hlo : (1477 <= 1477)%Z) by lia.
  assert (Hhi : (1477 < 2 ^ 53)%Z) by (rewrite two_53; lia).
  split; [exact Hlo|]. split; [exact Hhi|].
  exact (proj1 (calculateFibonacci_overflows 1477 Hlo Hhi)).
Defined.

(** ** The insight generator *)

(** Case analysis on the tests of a rule chain, the tests on a computed
    length apart. *)
Ltac split_ifs :=
  repeat match goal with
         | |- context [if ?b then _ else _] =>
             lazymatch b with
             | Nat.eqb _ _ => fail
             | _ => destruct b
             end
         end.

Lemma shapeInsights_count (code : string) (language : ProgrammingLanguage) :
  List.length (shapeInsights code language) <= 3.
Proof. unfold shapeInsights. split_ifs; cbn [List.length app]; lia. Qed.

Lemma languageInsights_count (code : string) (language : ProgrammingLanguage) :
  List.length (languageInsights code language) <= 2.
Proof.
  unfold languageInsights.
  destruct language; split_ifs; cbn [List.length app]; lia.
Qed.

(** X8.  [getAIInsights] never returns an empty list and never more than
    five insights: between one and five in the current revision (both
    bounds are reached), two or three in the revision before it. *)
Theorem insight_counts
        (code : string) (language : ProgrammingLanguage)
        (p : ComplexityData) (w : World) :
  (exists l, value (getAIInsights code language p w) = Some l
             /\ 1 <= List.length l <= 5)
  /\ (exists l, value (Rev2.getAIInsights code language p w) = Some l
                /\ 2 <= List.length l <= 3)
  /\ List.length (collectInsights cSingleLoop c p) = 1
  /\ List.length (collectInsights pythonFibonacciWithLoop python p) = 5.
Proof.
  split; [|split; [|split]].
  - exists (collectInsights code language p). split; [reflexivity|].
    unfold collectInsights. cbn zeta.
    pose proof (shapeInsights_count code language) as Hs.
    pose proof (languageInsights_count code language) as Hl.
    destruct (Nat.eqb_spec
                (List.length (shapeInsights code language
                              ++ languageInsights code language)) 0) as [E|E];
      rewrite ?length_app in *; [rewrite E|]; cbn [List.length genericInsights];
      lia.
  - exists (Rev2.collectInsights code language p). split; [reflexivity|].
    unfold Rev2.collectInsights. cbn zeta. split_ifs; cbn [List.length]; lia.
  - vm_compute. reflexivity.
  - vm_compute. reflexivity.
Qed.

Lemma languageInsights_titles (code : string) (language : ProgrammingLanguage)
      (i : Insight) :
  In i (languageInsights code language) -> title i <> "Use Memoization".
Proof.
  unfold languageInsights.
  destruct language; split_ifs; cbn [In app];
    intuition (subst; discriminate).
Qed.

Lemma genericInsights_titles (i : Insight) :
  In i genericInsights -> title i <> "Use Memoization".
Proof. cbn [In genericInsights]. intuition (subst; discriminate). Qed.

Lemma classify_fibonacci (code : string) (language : ProgrammingLanguage) :
  hasFibonacci code language = true ->
  classify code language = fibonacciProfile.
Proof. intros H. unfold classify. now rewrite H. Qed.

(** X9.  Whenever the insight list advises memoization, the classifier
    has classed the same snippet as exponential: an insight titled
    'Use Memoization' is only produced for a snippet that
    [analyzeComplexity] gives O(2^n) time and O(n) space. *)
Theorem memoization_advice_means_exponential
        (code : string) (language : ProgrammingLanguage) (p : ComplexityData)
        (w w' : World) (l : list Insight) (i : Insight) :
  value (getAIInsights code language p w) = Some l ->
  In i l ->
  title i = "Use Memoization" ->
  value (analyzeComplexity code language w')
  = Some {| timeComplexity := {| best := "O(2^n)"; average := "O(2^n)";
                                 worst := "O(2^n)" |};
            spaceComplexity := "O(n)";
            analysis := analysis fibonacciProfile |}.
Proof.
  intros Hl Hi Ht. rewrite analyzeComplexity_value.
  change (value (getAIInsights code language p w))
    with (Some (collectInsights code language p)) in Hl.
  inversion Hl; subst l; clear Hl.
  destruct (hasFibonacci code language) eqn:Hfib;
    [now rewrite classify_fibonacci|].
  exfalso. revert Hi. unfold collectInsights, shapeInsights. cbn zeta.
  rewrite Hfib. cbn [andb].
  match goal with
  | |- In i (if ?b then _ else _) -> _ => destruct b
  end; intros Hi; apply in_app_or in Hi.
  - destruct Hi as [Hi|Hi]; [|now apply genericInsights_titles in Hi].
    apply in_app_or in Hi. destruct Hi as [Hi|Hi];
      [|now apply languageInsights_titles in Hi].
    revert Hi. split_ifs; cbn [In app]; intuition (subst; discriminate).
  - destruct Hi as [Hi|Hi]; [|now apply languageInsights_titles in Hi].
    revert Hi. split_ifs; cbn [In app]; intuition (subst; discriminate).
Qed.

Lemma memoization_advice_means_exponential_witness :
  value (getAIInsights pythonFibonacci10 python defaultProfile world0)
  = Some (collectInsights pythonFibonacci10 python defaultProfile)
  /\ option_map spaceComplexity
       (value (analyzeComplexity pythonFibonacci10 python world0))
     = Some "O(n)".
Proof.
  assert (Hl : value (getAIInsights pythonFibonacci10 python defaultProfile world0)
               = Some (collectInsights pythonFibonacci10 python defaultProfile))
    by reflexivity.
  assert (Hi : In (insight optimization "Use Memoization"
                     "The current recursive implementation recalculates the same values multiple times, leading to inefficient execution."
                     "Memoization stores already computed values, eliminating redundant calculations and significantly improving performance."
                     "Reduces time complexity from exponential O(2^n) to linear O(n), making the algorithm practical for larger inputs."
                     (Some (generateMemoizationCode python)))
                  (collectInsights pythonFibonacci10 python defaultProfile))
    by (vm_compute; left; reflexivity).
  split; [exact Hl|].
  rewrite (memoization_advice_means_exponential
             pythonFibonacci10 python defaultProfile world0 world0 _ _
             Hl Hi eq_refl).
  reflexivity.
Defined.

(** X10.  Whenever the classifier returns the nested-loop profile, the
    insight list for the same snippet opens with the two nested-loop
    insights, 'Consider Time Complexity' and 'Early Termination'. *)
Theorem quadratic_class_means_nested_loop_advice
        (code : string) (language : ProgrammingLanguage) (p : ComplexityData)
        (w w' : World) :
  value (analyzeComplexity code language w) = Some nestedLoopsProfile ->
  exists l,
    value (getAIInsights code language p w') = Some l
    /\ map title (firstn 2 l) = ["Consider Time Complexity"; "Early Termination"].
Proof.
  rewrite analyzeComplexity_value. intros H.
  exists (collectInsights code language p). split; [reflexivity|].
  revert H. unfold classify.
  destruct (hasFibonacci code language) eqn:Hfib; [intros H; inversion H|].
  destruct (hasDynamicProgramming code); [intros H; inversion H|].
  destruct (hasBinarySearch code); [intros H; inversion H|].
  destruct (hasDivideAndConquer code); [intros H; inversion H|].
  destruct (hasGreedy code); [intros H; inversion H|].
  destruct (isNestedLoops code) eqn:Hnested;
    [|destruct (hasLoop code); intros H; inversion H].
  intros _. unfold collectInsights, shapeInsights. cbn zeta.
  rewrite Hfib, Hnested. reflexivity.
Qed.

Lemma quadratic_class_means_nested_loop_advice_witness :
  value (analyzeComplexity nestedLoopsPlain java world0) = Some nestedLoopsProfile
  /\ option_map (fun l => map title (firstn 2 l))
       (value (getAIInsights nestedLoopsPlain java defaultProfile world0))
     = Some ["Consider Time Complexity"; "Early Termination"].
Proof.
  assert (H : value (analyzeComplexity nestedLoopsPlain java world0)
              = Some nestedLoopsProfile) by (vm_compute; reflexivity).
  split; [exact H|].
  destruct (quadratic_class_means_nested_loop_advice
              nestedLoopsPlain java defaultProfile world0 world0 H)
    as (l & Hl & Ht).
  rewrite Hl. cbn [option_map]. now rewrite Ht.
Defined.

(** ** Print extraction *)

Lemma star_loop_keeps_captures (R : Type)
      (step : string -> captures -> (string -> captures -> option R) -> option R)
      (greedy : bool) (k : string -> captures -> option R) :
  (forall s caps k' v,
      step s caps k' = Some v -> exists s', k' s' caps = Some v) ->
  forall (fuel : nat) (s : string) (caps : captures) (v : R),
    star_loop step greedy k fuel s caps = Some v ->
    exists s', k s' caps = Some v.
Proof.
  intros Hstep fuel. induction fuel as [|fuel IH]; intros s caps v H;
    cbn [star_loop] in H; [now exists s|].
  assert (Hagain :
            forall u,
              step s caps
                (fun s' caps' =>
                   if (String.length s' <? String.length s)%nat
                   then star_loop step greedy k fuel s' caps' else None)
              = Some u ->
              exists s', k s' caps = Some u).
  { intros u Hu. apply Hstep in Hu. destruct Hu as (s1 & Hu).
    destruct (String.length s1 <? String.length s)%nat; [|discriminate].
    now apply IH in Hu. }
  cbn zeta in H. destruct greedy.
  - match type of H with
    | match ?a with _ => _ end = _ => destruct a as [u|] eqn:Ha
    end.
    + inversion H; subst. now apply Hagain.
    + now exists s.
  - destruct (k s caps) as [u|] eqn:Hk.
    + inversion H; subst. now exists s.
    + now apply Hagain.
Qed.

(** A pattern without groups hands the captures on as it got them. *)
Lemma rmatch_keeps_captures (ic : bool) (R : Type) (r : regex) :
  group_free r = true ->
  forall (s : string) (caps : captures)
         (k : string -> captures -> option R) (v : R),
    rmatch ic r s caps k = Some v -> exists s', k s' caps = Some v.
Proof.
  induction r as [ | x | p | r1 IH1 r2 IH2 | g r1 IH | g r1 IH | i r1 IH];
    cbn [group_free]; intros Hg s caps k v H; cbn [rmatch] in H.
  - now exists s.
  - destruct s as [|y s]; [discriminate|].
    destruct (chr_matches ic x y); [|discriminate]. now exists s.
  - destruct s as [|y s]; [discriminate|].
    destruct (cls_matches ic p y); [|discriminate]. now exists s.
  - apply andb_true_iff in Hg. destruct Hg as [Hg1 Hg2].
    apply (IH1 Hg1) in H. destruct H as (s1 & H). now apply (IH2 Hg2) in H.
  - eapply star_loop_keeps_captures; [|eassumption].
    intros s0 c0 k0 v0 H0. exact (IH Hg s0 c0 k0 v0 H0).
  - destruct g.
    + destruct (rmatch ic r1 s caps k) as [u|] eqn:Hr.
      * inversion H; subst. exact (IH Hg _ _ _ _ Hr).
      * now exists s.
    + destruct (k s caps) as [u|] eqn:Hk.
      * inversion H; subst. now exists s.
      * exact (IH Hg _ _ _ _ H).
  - discriminate.
Qed.

(** An optional part in front of a continuation that cannot fail. *)
Lemma rmatch_Opt_succeeds (ic : bool) (R : Type) (g : bool) (r : regex)
      (k : string -> captures -> option R) :
  (forall s caps, exists v, k s caps = Some v) ->
  forall s caps, exists v, rmatch ic (Opt g r) s caps k = Some v.
Proof.
  intros Hk s caps. cbn [rmatch]. destruct (Hk s caps) as [v Hv]. destruct g.
  - destruct (rmatch ic r s caps k) as [u|]; [now exists u | now exists v].
  - rewrite Hv. now exists v.
Qed.

(** A lazy repetition stops at once when what follows matches. *)
Lemma lazy_star_stops (R : Type)
      (step : string -> captures -> (string -> captures -> option R) -> option R)
      (k : string -> captures -> option R) (fuel : nat) (s : string)
      (caps : captures) (v : R) :
  k s caps = Some v -> star_loop step false k fuel s caps = Some v.
Proof. intros H. destruct fuel; cbn [star_loop]; now rewrite H. Qed.

Lemma consumed_nothing (s : string) : consumed s s = "".
Proof. unfold consumed. rewrite Nat.sub_diag. now destruct s. Qed.

Lemma search_match_here (ic : bool) (r : regex) :
  forall (s : string) (pos : nat) (m : match_result),
    search ic r s pos = Some m ->
    exists s' pos', match_here ic r s' pos' = Some m.
Proof.
  induction s as [|x s IH]; intros pos m H; cbn [search] in H.
  - destruct (match_here ic r "" pos) eqn:Hm; [|discriminate].
    inversion H; subst. now exists "", pos.
  - destruct (match_here ic r (String x s) pos) eqn:Hm.
    + inversion H; subst. now exists (String x s), pos.
    + now apply IH in H.
Qed.

(** Every element of [match_all] is a match at some position. *)
Lemma match_all_match_here (ic : bool) (r : regex) (m : match_result) :
  forall (fuel : nat) (s : string) (pos : nat),
    In m (match_all_from fuel ic r s pos) ->
    exists s' pos', match_here ic r s' pos' = Some m.
Proof.
  induction fuel as [|fuel IH]; intros s pos H; cbn [match_all_from] in H;
    [contradiction|].
  destruct (search ic r s pos) as [m1|] eqn:Hs; [|contradiction].
  assert (Hm1 : exists s' pos', match_here ic r s' pos' = Some m1)
    by now apply search_match_here in Hs.
  destruct (m_text m1); [destruct (m_rest m1)|]; cbn [In] in H;
    destruct H as [<-|H]; try exact Hm1; try contradiction;
    now apply IH in H.
Qed.

Lemma rmatch_Seq (ic : bool) (R : Type) (r1 r2 : regex) (s : string)
      (caps : captures) (k : string -> captures -> option R) :
  rmatch ic (Seq r1 r2) s caps k
  = rmatch ic r1 s caps (fun s' caps' => rmatch ic r2 s' caps' k).
Proof. reflexivity. Qed.

Lemma rmatch_Cat (ic : bool) (R : Type) (r : regex) (rs : list regex)
      (s : string) (caps : captures) (k : string -> captures -> option R) :
  rmatch ic (Cat (r :: rs)) s caps k
  = rmatch ic r s caps (fun s' caps' => rmatch ic (Cat rs) s' caps' k).
Proof. reflexivity. Qed.

Lemma rmatch_lazy_group (ic : bool) (R : Type) (i : nat) (r : regex)
      (s : string) (caps : captures) (k : string -> captures -> option R) :
  rmatch ic (Grp i (Star false r)) s caps k
  = star_loop (rmatch ic r) false
      (fun s' caps' => k s' ((i, consumed s s') :: caps'))
      (String.length s) s caps.
Proof. reflexivity. Qed.

Ltac skip_group_free H :=
  rewrite rmatch_Cat in H;
  apply rmatch_keeps_captures in H; [|reflexivity];
  destruct H as (? & H); cbv beta in H.

(** The group of the cout pattern is lazy and everything after it is
    optional: it never captures anything. *)
Lemma coutRegex_group_is_empty (s : string) (pos : nat) (m : match_result) :
  match_here false coutRegex s pos = Some m -> group 1 m = "".
Proof.
  unfold match_here, coutRegex. intros H.
  do 5 skip_group_free H.
  rewrite rmatch_Cat, rmatch_lazy_group in H.
  match type of H with
  | star_loop ?step false ?k ?fuel ?s5 [] = Some m =>
      assert (Hk : exists v, k s5 [] = Some v)
  end.
  { cbv beta. rewrite rmatch_Cat.
    apply (rmatch_Opt_succeeds false match_result true).
    intros s6 c6. rewrite rmatch_Cat.
    apply (rmatch_Opt_succeeds false match_result true).
    intros s7 c7. cbn [Cat rmatch]. eexists. reflexivity. }
  destruct Hk as [v Hk].
  rewrite (lazy_star_stops _ _ _ _ _ _ _ Hk) in H. inversion H; subst v; clear H.
  cbv beta in Hk.
  do 2 skip_group_free Hk.
  cbn [Cat rmatch] in Hk. inversion Hk; subst m; clear Hk.
  unfold group. cbn [m_caps capture Nat.eqb]. apply consumed_nothing.
Qed.

Lemma blank_append (a b : string) : blank a -> blank b -> blank (a ++ b).
Proof.
  unfold blank. intros Ha Hb. induction a as [|x a IH]; [exact Hb|].
  cbn [append trimStart] in *.
  destruct (is_space x); [now apply IH | discriminate].
Qed.

Lemma trimStart_after_blank (a b : string) :
  blank a -> trimStart (a ++ b) = trimStart b.
Proof.
  unfold blank. intros Ha. induction a as [|x a IH]; [reflexivity|].
  cbn [append trimStart] in *.
  destruct (is_space x); [now apply IH | discriminate].
Qed.

Lemma concat_map_blank (f : match_result -> string) (ms : list match_result) :
  (forall m, In m ms -> blank (f m)) -> blank (concat_map f ms).
Proof.
  unfold concat_map. assert (H0 : blank "") by reflexivity. revert H0.
  generalize ""%string as output. induction ms as [|m ms IH];
    intros output Hout Hf; cbn [fold_left]; [exact Hout|].
  apply IH.
  - apply blank_append; [exact Hout | apply Hf; now left].
  - intros m' Hm'. apply Hf. now right.
Qed.

(** X11. A text sent to [cout] is never echoed: the group of the cout
    pattern captures nothing in any match, so that all the output the print
    extraction finds in a C++ snippet is one 'Variable <name>: 42' line for
    each name (other than endl) that follows 'cout <<'. *)
Theorem cout_texts_are_never_echoed (code : string) :
  Forall (fun m => group 1 m = "") (match_all false coutRegex code)
  /\ extractPrintStatements code cpp
     = Some (trim (concat_map
                     (fun m => if negb (String.eqb (group 1 m) "endl")
                               then "Variable " ++ group 1 m ++ ": 42" ++ nl
                               else "")
                     (match_all false coutVarRegex code))).
Proof.
  assert (Hgroup : forall m, In m (match_all false coutRegex code) ->
                             group 1 m = "").
  { intros m Hm. apply match_all_match_here in Hm.
    destruct Hm as (s & pos & Hm). exact (coutRegex_group_is_empty s pos m Hm). }
  split; [now apply Forall_forall|].
  unfold extractPrintStatements. cbv zeta. f_equal. unfold trim. f_equal.
  apply trimStart_after_blank, concat_map_blank.
  intros m Hm. rewrite (Hgroup m Hm).
  destruct (includes code "endl" || includes code "\n"); reflexivity.
Qed.

(** *** One Python [print] call *)

Lemma shorter_tail (x : ascii) (s : string) :
  (String.length s <? String.length (String x s))%nat = true.
Proof. apply Nat.ltb_lt. cbn [String.length]. lia. Qed.

Lemma rmatch_Cls_cons (ic : bool) (R : Type) (p : ascii -> bool) (x : ascii)
      (s : string) (caps : captures) (k : string -> captures -> option R) :
  rmatch ic (Cls p) (String x s) caps k
  = if cls_matches ic p x then k s caps else None.
Proof. reflexivity. Qed.

Lemma rmatch_Chr_cons (ic : bool) (R : Type) (c x : ascii)
      (s : string) (caps : captures) (k : string -> captures -> option R) :
  rmatch ic (Chr c) (String x s) caps k
  = if chr_matches ic c x then k s caps else None.
Proof. reflexivity. Qed.

Lemma rmatch_Star (ic : bool) (R : Type) (g : bool) (r : regex)
      (s : string) (caps : captures) (k : string -> captures -> option R) :
  rmatch ic (Star g r) s caps k
  = star_loop (rmatch ic r) g k (String.length s) s caps.
Proof. reflexivity. Qed.

(** Greedy white space: when what follows matches after all of it, that
    is the match. *)
Lemma greedy_spaces (R : Type) (k : string -> captures -> option R) :
  forall (s : string) (fuel : nat) (caps : captures) (v : R),
    String.length s <= fuel ->
    k (trimStart s) caps = Some v ->
    star_loop (rmatch false (Cls is_space)) true k fuel s caps = Some v.
Proof.
  induction s as [|x s IH]; intros fuel caps v Hf Hk; cbn [trimStart] in Hk.
  - destruct fuel; cbn [star_loop]; [exact Hk | now rewrite Hk].
  - destruct fuel as [|fuel]; [cbn [String.length] in Hf; lia|].
    cbn [star_loop]. rewrite rmatch_Cls_cons. unfold cls_matches.
    destruct (is_space x).
    + rewrite shorter_tail.
      rewrite (IH fuel caps v); [reflexivity | cbn [String.length] in Hf; lia | exact Hk].
    + exact Hk.
Qed.

Lemma no_paren (x : ascii) (u : string) :
  count_char "(" (String x u) = 0 -> count_char ")" (String x u) = 0 ->
  none_of "()" x = true /\ Ascii.eqb ")" x = false
  /\ count_char "(" u = 0 /\ count_char ")" u = 0.
Proof.
  cbn [count_char]. intros H1 H2.
  destruct (Ascii.eqb_spec x "(") as [->|N1]; [discriminate|].
  destruct (Ascii.eqb_spec x ")") as [->|N2]; [discriminate|].
  unfold none_of, one_of. cbn [count_char].
  destruct (Ascii.eqb_spec "(" x) as [<-|_]; [contradiction|].
  destruct (Ascii.eqb_spec ")" x) as [<-|_]; [contradiction|].
  repeat split; assumption.
Qed.

(** White space and a closing parenthesis do not match in front of
    anything else. *)
Lemma greedy_spaces_fail (R : Type) (k : string -> captures -> option R) :
  forall (u : string) (fuel : nat) (caps : captures),
    count_char ")" u = 0 -> trimStart u <> "" ->
    star_loop (rmatch false (Cls is_space)) true
      (fun s c => rmatch false (Chr ")") s c k) fuel (u ++ ")") caps = None.
Proof.
  induction u as [|x u IH]; intros fuel caps Hc Ht; [now contradiction Ht|].
  assert (Hx : Ascii.eqb ")" x = false).
  { cbn [count_char] in Hc. destruct (Ascii.eqb_spec ")" x) as [<-|]; [discriminate|reflexivity]. }
  assert (Hu : count_char ")" u = 0).
  { cbn [count_char] in Hc. destruct (Ascii.eqb x ")"); [discriminate|exact Hc]. }
  cbn [append]. destruct fuel as [|fuel]; cbn [star_loop];
    rewrite ?rmatch_Cls_cons, ?rmatch_Chr_cons;
    unfold chr_matches, cls_matches; [now rewrite Hx|].
  cbn [trimStart] in Ht. destruct (is_space x).
  - rewrite shorter_tail, (IH fuel caps Hu Ht), Hx. reflexivity.
  - now rewrite Hx.
Qed.

Lemma trimEnd_empty_blank (u : string) : trimEnd u = "" -> blank u.
Proof.
  unfold blank. induction u as [|x u IH]; [reflexivity|].
  cbn [trimEnd trimStart]. destruct (trimEnd u); [|discriminate].
  destruct (is_space x); [intros _; now apply IH | discriminate].
Qed.

Lemma blank_trimEnd_empty (u : string) : blank u -> trimEnd u = "".
Proof.
  unfold blank. induction u as [|x u IH]; [reflexivity|].
  cbn [trimEnd trimStart]. destruct (is_space x); [|discriminate].
  intros H. now rewrite (IH H).
Qed.

Lemma trimEnd_cons (x : ascii) (u : string) :
  trimEnd (String x u) <> "" -> trimEnd (String x u) = String x (trimEnd u).
Proof.
  cbn [trimEnd]. destruct (trimEnd u); [|reflexivity].
  destruct (is_space x); [intros H; now contradiction H | reflexivity].
Qed.

(** The white space at the end of a string. *)
Lemma trimEnd_split (u : string) :
  u = trimEnd u ++ drop (String.length (trimEnd u)) u
  /\ blank (drop (String.length (trimEnd u)) u).
Proof.
  induction u as [|x u [IH1 IH2]]; [now split|].
  destruct (trimEnd (String x u)) as [|y t] eqn:He.
  - split; [reflexivity|]. cbn [String.length drop].
    now apply trimEnd_empty_blank.
  - rewrite <- He. rewrite trimEnd_cons by (rewrite He; discriminate).
    cbn [String.length drop append]. split; [now rewrite <- IH1 | exact IH2].
Qed.

(** The lazy group of the print pattern, in front of [\s*\)]: it stops in
    front of the white space that ends the argument. *)
Lemma lazy_scan (R : Type) (f : string -> captures -> captures)
      (k : string -> captures -> option R) :
  (forall c, exists v, k "" c = Some v) ->
  forall (u : string) (fuel : nat) (caps : captures),
    count_char "(" u = 0 -> count_char ")" u = 0 ->
    String.length u <= fuel ->
    star_loop (rmatch false (Cls (none_of "()"))) false
      (fun s c => rmatch false s_star s (f s c)
                    (fun s' c' => rmatch false (Chr ")") s' c' k))
      fuel (u ++ ")") caps
    = k "" (f (drop (String.length (trimEnd u)) u ++ ")") caps).
Proof.
  intros Hk. induction u as [|x u IH]; intros fuel caps H1 H2 Hf.
  - cbn [trimEnd String.length drop append].
    destruct (Hk (f ")" caps)) as [v Hv]. rewrite Hv.
    apply lazy_star_stops. unfold s_star. rewrite rmatch_Star.
    apply greedy_spaces; [lia|]. exact Hv.
  - destruct (trimEnd (String x u)) as [|y t] eqn:He.
    + cbn [String.length drop].
      destruct (Hk (f (String x u ++ ")") caps)) as [v Hv]. rewrite Hv.
      apply lazy_star_stops. unfold s_star. rewrite rmatch_Star.
      apply greedy_spaces; [lia|].
      rewrite (trimStart_after_blank _ _ (trimEnd_empty_blank _ He)).
      exact Hv.
    + rewrite <- He. rewrite trimEnd_cons by (rewrite He; discriminate).
      cbn [String.length drop].
      destruct (no_paren x u H1 H2) as (Hx & _ & H1' & H2').
      destruct fuel as [|fuel]; [cbn [String.length] in Hf; lia|].
      cbn [append star_loop].
      assert (Hnone :
                rmatch false s_star (String x (u ++ ")"))
                  (f (String x (u ++ ")")) caps)
                  (fun s' c' => rmatch false (Chr ")") s' c' k) = None).
      { unfold s_star. rewrite rmatch_Star.
        apply (greedy_spaces_fail R k (String x u)); [exact H2|].
        intros Hb. apply blank_trimEnd_empty in Hb. congruence. }
      rewrite Hnone. rewrite rmatch_Cls_cons. unfold cls_matches. rewrite Hx.
      rewrite shorter_tail. apply IH; [assumption..|].
      cbn [String.length] in Hf. lia.
Qed.

Lemma length_append (a b : string) :
  String.length (a ++ b) = String.length a + String.length b.
Proof. induction a as [|x a IH]; [reflexivity|]. cbn [append String.length]. now rewrite IH. Qed.

Lemma append_assoc (a b d : string) : (a ++ b) ++ d = a ++ (b ++ d).
Proof. induction a as [|x a IH]; [reflexivity|]. cbn [append]. now rewrite IH. Qed.

Lemma substring_prefix (a b : string) :
  substring 0 (String.length a) (a ++ b) = a.
Proof.
  induction a as [|x a IH]; [now destruct b|].
  cbn [append String.length substring]. now rewrite IH.
Qed.

Lemma consumed_append (a b : string) : consumed (a ++ b) b = a.
Proof.
  unfold consumed. rewrite length_append.
  replace (String.length a + String.length b - String.length b)
    with (String.length a) by lia.
  apply substring_prefix.
Qed.

Lemma consumed_all (s : string) : consumed s "" = s.
Proof.
  unfold consumed. cbn [String.length]. rewrite Nat.sub_0_r.
  induction s as [|x s IH]; [reflexivity|].
  cbn [String.length substring]. now rewrite IH.
Qed.

Lemma consumed_tail (u t : string) :
  consumed (u ++ t) (drop (String.length (trimEnd u)) u ++ t) = trimEnd u.
Proof.
  destruct (trimEnd_split u) as [E _].
  assert (E2 : u ++ t
               = trimEnd u ++ (drop (String.length (trimEnd u)) u ++ t)).
  { rewrite <- append_assoc. f_equal. exact E. }
  rewrite E2 at 1. apply consumed_append.
Qed.

Lemma rmatch_Lit_append (R : Type) (l : string) :
  forall (s : string) (caps : captures) (k : string -> captures -> option R),
    rmatch false (Lit l) (l ++ s) caps k = k s caps.
Proof.
  induction l as [|x l IH]; intros s caps k; [reflexivity|].
  cbn [Lit append]. rewrite rmatch_Seq, rmatch_Chr_cons.
  unfold chr_matches. rewrite Ascii.eqb_refl. apply IH.
Qed.

Lemma trimStart_before (a : string) (x : ascii) (r : string) :
  is_space x = false -> trimStart (a ++ String x r) = trimStart a ++ String x r.
Proof.
  intros Hx. induction a as [|y a IH]; cbn [append trimStart].
  - now rewrite Hx.
  - destruct (is_space y); [exact IH | reflexivity].
Qed.

Lemma trimStart_head (s : string) :
  trimStart s = ""
  \/ exists x r, trimStart s = String x r /\ is_space x = false.
Proof.
  induction s as [|x s IH]; [now left|]. cbn [trimStart].
  destruct (is_space x) eqn:Hx; [exact IH|]. right. now exists x, s.
Qed.

Lemma trimEnd_idempotent (s : string) : trimEnd (trimEnd s) = trimEnd s.
Proof.
  induction s as [|x s IH]; [reflexivity|]. cbn [trimEnd].
  destruct (trimEnd s) as [|y t] eqn:He.
  - destruct (is_space x) eqn:Hx; [reflexivity|]. cbn [trimEnd]. now rewrite Hx.
  - cbn [trimEnd] in *. now rewrite IH.
Qed.

Lemma trim_idempotent (s : string) : trim (trim s) = trim s.
Proof.
  unfold trim. destruct (trimStart_head s) as [->|(x & r & -> & Hx)];
    [reflexivity|].
  assert (Hhead : trimStart (trimEnd (String x r)) = trimEnd (String x r)).
  { cbn [trimEnd]. destruct (trimEnd r); rewrite ?Hx; cbn [trimStart];
      now rewrite Hx. }
  rewrite Hhead. apply trimEnd_idempotent.
Qed.

Lemma trimEnd_count (c : ascii) (s : string) :
  is_space c = false -> count_char c (trimEnd s) = count_char c s.
Proof.
  intros Hc. induction s as [|x s IH]; [reflexivity|].
  cbn [trimEnd]. destruct (trimEnd s) as [|y t].
  - destruct (is_space x) eqn:Hx; cbn [count_char] in *; [|now rewrite <- IH].
    rewrite <- IH. destruct (Ascii.eqb_spec x c); [congruence|reflexivity].
  - cbn [count_char] in *. now rewrite IH.
Qed.

Lemma trim_count (c : ascii) (s : string) :
  is_space c = false -> count_char c (trim s) = count_char c s.
Proof.
  intros Hc. unfold trim.
  now rewrite (trimEnd_count c _ Hc), (trimStart_count c s Hc).
Qed.

Lemma trimEnd_newline (t : string) : trimEnd (t ++ nl) = trimEnd t.
Proof.
  induction t as [|x t IH]; [reflexivity|]. cbn [append trimEnd]. now rewrite IH.
Qed.

(** The line feed the loop adds after each text is trimmed away at the end. *)
Lemma trim_newline (s : string) : trim (s ++ nl) = trim s.
Proof.
  unfold trim. destruct (trimStart_head s) as [Hb|(x & r & Hs & Hx)].
  - rewrite (trimStart_after_blank s nl Hb), Hb. reflexivity.
  - assert (Happ : trimStart (s ++ nl) = trimStart s ++ nl).
    { clear Hx. induction s as [|y s IH]; [discriminate|].
      cbn [append trimStart] in *.
      destruct (is_space y); [exact (IH Hs)|reflexivity]. }
    rewrite Happ. apply trimEnd_newline.
Qed.

(** The print pattern on [print(arg)]: the whole call, its group the
    trimmed argument. *)
Lemma rmatch_print_call (R : Type) (k : string -> captures -> option R)
      (arg : string) :
  (forall c, exists v, k "" c = Some v) ->
  count_char "(" arg = 0 -> count_char ")" arg = 0 ->
  rmatch false printRegex_py ("print" ++ String "(" (arg ++ ")")) [] k
  = k "" [(1, trim arg)].
Proof.
  intros Hk H1 H2. destruct (Hk [(1, trim arg)]) as [v Hv]. rewrite Hv.
  unfold printRegex_py. rewrite rmatch_Cat, rmatch_Lit_append.
  rewrite rmatch_Cat. unfold s_star at 1. rewrite rmatch_Star.
  apply greedy_spaces; [lia|].
  change (trimStart (String "(" (arg ++ ")"))) with (String "(" (arg ++ ")")).
  rewrite rmatch_Cat, rmatch_Chr_cons. unfold chr_matches.
  rewrite Ascii.eqb_refl.
  rewrite rmatch_Cat. unfold s_star at 1. rewrite rmatch_Star.
  apply greedy_spaces; [lia|].
  rewrite (trimStart_before arg ")" "") by reflexivity.
  rewrite rmatch_Cat, rmatch_lazy_group.
  etransitivity.
  - apply (lazy_scan R (fun s c => (1, consumed (trimStart arg ++ ")") s) :: c)
             (fun s c => rmatch false (Cat []) s c k)).
    + intros c. cbn [Cat rmatch]. apply Hk.
    + now rewrite trimStart_count.
    + now rewrite trimStart_count.
    + rewrite length_append. lia.
  - cbn [Cat rmatch]. rewrite consumed_tail. exact Hv.
Qed.

Lemma search_here (ic : bool) (r : regex) (s : string) (pos : nat)
      (m : match_result) :
  match_here ic r s pos = Some m -> search ic r s pos = Some m.
Proof. intros H. destruct s; cbn [search]; now rewrite H. Qed.

Lemma match_all_print_call (arg : string) :
  count_char "(" arg = 0 -> count_char ")" arg = 0 ->
  match_all false printRegex_py ("print(" ++ arg ++ ")")
  = [{| m_index := 0; m_text := "print(" ++ arg ++ ")"; m_rest := "";
        m_caps := [(1, trim arg)] |}].
Proof.
  intros H1 H2. unfold match_all. cbn [match_all_from].
  assert (Hm : match_here false printRegex_py ("print(" ++ arg ++ ")") 0
               = Some {| m_index := 0; m_text := "print(" ++ arg ++ ")";
                         m_rest := ""; m_caps := [(1, trim arg)] |}).
  { unfold match_here.
    rewrite (rmatch_print_call match_result _ arg); [| |exact H1|exact H2].
    - now rewrite consumed_all.
    - intros c. eexists. reflexivity. }
  rewrite (search_here _ _ _ _ _ Hm). cbn [m_text m_rest m_index append].
  reflexivity.
Qed.

Lemma count_suffix (c : ascii) (t s : string) :
  suffix t s -> count_char c t <= count_char c s.
Proof.
  intros [n ->]. revert s. induction n as [|n IH]; intros s; [cbn [drop]; lia|].
  destruct s as [|x s]; cbn [drop count_char]; [lia|].
  specialize (IH s). lia.
Qed.

Lemma search_match_suffix (ic : bool) (r : regex) :
  forall (s : string) (pos : nat) (m : match_result),
    search ic r s pos = Some m ->
    exists s' pos', suffix s' s /\ match_here ic r s' pos' = Some m.
Proof.
  induction s as [|x s IH]; intros pos m H; cbn [search] in H.
  - destruct (match_here ic r "" pos) eqn:Hm; [|discriminate].
    inversion H; subst. exists "", pos. split; [apply suffix_refl|exact Hm].
  - destruct (match_here ic r (String x s) pos) eqn:Hm.
    + inversion H; subst. exists (String x s), pos.
      split; [apply suffix_refl|exact Hm].
    + apply IH in H. destruct H as (s' & pos' & Hs & H).
      exists s', pos'. split; [|exact H].
      exact (suffix_trans _ _ _ Hs (suffix_tail x s)).
Qed.

(** The pattern that looks for the argument of a Fibonacci call needs an
    opening parenthesis. *)
Lemma fibRegex_needs_parenthesis (s : string) :
  count_char "(" s = 0 -> exec false fibRegex s = None.
Proof.
  intros Hc. unfold exec. destruct (search false fibRegex s 0) as [m|] eqn:Hs;
    [exfalso|reflexivity].
  apply search_match_suffix in Hs. destruct Hs as (s0 & pos & S0 & Hm).
  unfold match_here, fibRegex in Hm.
  rewrite rmatch_Cat in Hm. apply rmatch_suffix in Hm.
  destruct Hm as (s1 & c1 & S1 & Hm). cbv beta in Hm.
  rewrite rmatch_Cat in Hm. apply rmatch_suffix in Hm.
  destruct Hm as (s2 & c2 & S2 & Hm). cbv beta in Hm.
  rewrite rmatch_Cat in Hm. apply rmatch_suffix in Hm.
  destruct Hm as (s3 & c3 & S3 & Hm). cbv beta in Hm.
  rewrite rmatch_Cat in Hm. destruct s3 as [|y s3]; [discriminate|].
  rewrite rmatch_Chr_cons in Hm. unfold chr_matches in Hm.
  destruct (Ascii.eqb_spec "(" y) as [<-|]; [|discriminate].
  pose proof (count_suffix "(" _ _
                (suffix_trans _ _ _ S3
                   (suffix_trans _ _ _ S2 (suffix_trans _ _ _ S1 S0)))) as Hle.
  cbn [count_char] in Hle. rewrite Ascii.eqb_refl, Hc in Hle.
  cbv iota in Hle. lia.
Qed.

Lemma extractPrintStatements_print_call (arg : string) :
  count_char "(" arg = 0 -> count_char ")" arg = 0 ->
  extractPrintStatements ("print(" ++ arg ++ ")") python
  = Some (python_print_output arg).
Proof.
  intros H1 H2. unfold extractPrintStatements.
  rewrite (match_all_print_call arg H1 H2). cbn [append_all].
  unfold python_print, python_print_output, group.
  cbn [m_caps capture Nat.eqb]. cbv zeta. rewrite trim_idempotent.
  destruct (includes (trim arg) "fibonacci" || includes (trim arg) "fib").
  - rewrite fibRegex_needs_parenthesis
      by (rewrite trim_count by reflexivity; exact H1).
    reflexivity.
  - destruct (negb (startsWith (trim arg) dq)
              && negb (startsWith (trim arg) "'")); [reflexivity|].
    cbn [append_all option_map append]. now rewrite trim_newline.
Qed.

Lemma includes_somewhere (needle : string) :
  forall s : string,
    includes s needle = true -> exists n, prefix needle (drop n s) = true.
Proof.
  induction s as [|x s IH]; cbn [includes]; intros H.
  - rewrite orb_false_r in H. now exists 0.
  - apply orb_true_iff in H. destruct H as [H|H]; [now exists 0|].
    destruct (IH H) as [n Hn]. now exists (S n).
Qed.

Lemma count_append (c : ascii) (a b : string) :
  count_char c (a ++ b) = count_char c a + count_char c b.
Proof.
  induction a as [|x a IH]; [reflexivity|]. cbn [append count_char].
  rewrite IH. lia.
Qed.

Lemma print_call_reads_no_input (arg : string) :
  count_char "(" arg = 0 ->
  hasInputStatements ("print(" ++ arg ++ ")") python = false.
Proof.
  intros H1. unfold hasInputStatements.
  destruct (includes ("print(" ++ arg ++ ")") "input(") eqn:Hin; [exfalso|reflexivity].
  apply includes_somewhere in Hin. destruct Hin as [n Hn].
  do 6 (destruct n as [|n]; [vm_compute in Hn; discriminate|]).
  cbn [append drop] in Hn.
  apply (prefix_count "(") in Hn.
  pose proof (count_suffix "(" (drop n (arg ++ ")")) (arg ++ ")")
                (ex_intro _ n eq_refl)) as Hle.
  rewrite count_append, H1 in Hle.
  change (count_char "(" "input(") with 1 in Hn.
  change (count_char "(" ")") with 0 in Hle. lia.
Qed.

(** X12. The one-statement Python program [print(arg)], for an argument
    without parentheses: the print extraction yields '55' when the
    argument mentions fib, the argument without its quotes (trimmed) when
    it starts with a quote, and '42' otherwise; when the validator passes
    the program and that text is not empty, it is the output of the
    run. *)
Theorem python_print_call (arg : string) (w : World) :
  count_char "(" arg = 0 -> count_char ")" arg = 0 ->
  extractPrintStatements ("print(" ++ arg ++ ")") python
  = Some (python_print_output arg)
  /\ (detectSyntaxErrors ("print(" ++ arg ++ ")") python = None ->
      truthy (python_print_output arg) = true ->
      executeCode ("print(" ++ arg ++ ")") python w
      = Some ({| status := success; output := python_print_output arg;
                 executionTime := elapsed w |}, settled w)).
Proof.
  intros H1 H2. split; [exact (extractPrintStatements_print_call arg H1 H2)|].
  intros Hsyn Hout.
  assert (Hcode : truthy (trim ("print(" ++ arg ++ ")")) = true).
  { apply (includes_not_blank "p" "print("); [reflexivity | cbn; lia |].
    apply (includes_at "print(" 0). cbn [drop]. apply prefix_append. }
  rewrite (executeCode_runs _ python w Hcode), Hsyn.
  unfold simulateExecution.
  rewrite (print_call_reads_no_input arg H1).
  rewrite (extractPrintStatements_print_call arg H1 H2).
  assert (Htrim : trim (python_print_output arg) = python_print_output arg).
  { unfold python_print_output. cbv zeta.
    destruct (includes (trim arg) "fibonacci" || includes (trim arg) "fib");
      [reflexivity|].
    destruct (negb (startsWith (trim arg) dq)
              && negb (startsWith (trim arg) "'")); [reflexivity|].
    apply trim_idempotent. }
  rewrite Htrim, Hout. reflexivity.
Qed.

Lemma python_print_call_witness :
  extractPrintStatements ("print(" ++ (dq ++ "Hello, World!" ++ dq) ++ ")") python
  = Some "Hello, World!"
  /\ option_map output
       (value (executeCode ("print(" ++ (dq ++ "Hello, World!" ++ dq) ++ ")")
                 python world0))
     = Some "Hello, World!".
Proof.
  assert (H1 : count_char "(" (dq ++ "Hello, World!" ++ dq) = 0) by reflexivity.
  assert (H2 : count_char ")" (dq ++ "Hello, World!" ++ dq) = 0) by reflexivity.
  assert (Hsyn : detectSyntaxErrors
                   ("print(" ++ (dq ++ "Hello, World!" ++ dq) ++ ")") python
                 = None) by (vm_compute; reflexivity).
  assert (Hout : truthy (python_print_output (dq ++ "Hello, World!" ++ dq))
                 = true) by (vm_compute; reflexivity).
  assert (Hval : python_print_output (dq ++ "Hello, World!" ++ dq)
                 = "Hello, World!") by (vm_compute; reflexivity).
  destruct (python_print_call (dq ++ "Hello, World!" ++ dq) world0 H1 H2)
    as [Hx Hrun].
  split.
  - rewrite Hx, Hval. reflexivity.
  - rewrite (Hrun Hsyn Hout), Hval. reflexivity.
Defined.

(** ** The revisions of the classifier *)

Lemma prefix_toLowerCase :
  forall p s : string,
    prefix p s = true -> prefix (toLowerCase p) (toLowerCase s) = true.
Proof.
  induction p as [|a p IH]; intros s H; [now destruct s|].
  destruct s as [|b s]; cbn [prefix] in H; [discriminate|].
  destruct (ascii_dec a b) as [->|]; [|discriminate].
  cbn [toLowerCase prefix].
  destruct (ascii_dec (lower_char b) (lower_char b)); [now apply IH | contradiction].
Qed.

(** A lower-case needle found in a text is found in its lower-case form. *)
Lemma includes_toLowerCase (needle : string) :
  forall s : string,
    includes s needle = true ->
    includes (toLowerCase s) (toLowerCase needle) = true.
Proof.
  induction s as [|x s IH]; cbn [includes]; intros H.
  - rewrite orb_false_r in H. apply prefix_toLowerCase in H.
    cbn [toLowerCase] in H. cbn [toLowerCase includes]. now rewrite H.
  - apply orb_true_iff in H. cbn [toLowerCase includes].
    destruct H as [H|H].
    + apply prefix_toLowerCase in H. cbn [toLowerCase] in H. now rewrite H.
    + rewrite (IH H). apply orb_true_r.
Qed.

Lemma Rev1_exponential (code : string) (language : ProgrammingLanguage) :
  worst (timeComplexity (Rev1.classify code language)) = "O(2^n)" ->
  Rev1.hasFibonacci code = true.
Proof.
  unfold Rev1.classify. destruct (Rev1.hasFibonacci code); [reflexivity|].
  cbn. discriminate.
Qed.

Lemma Rev2_exponential (code : string) (language : ProgrammingLanguage) :
  worst (timeComplexity (Rev2.classify code language)) = "O(2^n)" ->
  Rev2.hasFibonacci_complexity code = true.
Proof.
  unfold Rev2.classify. destruct (Rev2.hasFibonacci_complexity code);
    [reflexivity|].
  destruct (Rev2.hasNestedLoop code); [cbn; discriminate|].
  destruct (Rev2.hasLoop code); cbn; discriminate.
Qed.

(** X13. The exponential verdict survives the rewrites of the classifier:
    a snippet that the first revision of [analyzeComplexity] puts in
    O(2^n) is put there by the second, and one that the second puts there
    is put there by the latest, whatever else the later revisions look
    for. *)
Theorem exponential_verdict_survives
        (code : string) (language : ProgrammingLanguage) :
  (worst (timeComplexity (Rev1.classify code language)) = "O(2^n)" ->
   worst (timeComplexity (Rev2.classify code language)) = "O(2^n)")
  /\ (worst (timeComplexity (Rev2.classify code language)) = "O(2^n)" ->
      classify code language = fibonacciProfile).
Proof.
  split; intros H.
  - apply Rev1_exponential in H. unfold Rev1.hasFibonacci in H.
    apply andb_true_iff in H. destruct H as [H H2].
    apply andb_true_iff in H. destruct H as [H H1].
    apply andb_true_iff in H. destruct H as [Hf Hr].
    unfold Rev2.classify, Rev2.hasFibonacci_complexity.
    rewrite Hf, Hr, H1, H2. reflexivity.
  - apply Rev2_exponential in H. unfold Rev2.hasFibonacci_complexity in H.
    apply andb_true_iff in H. destruct H as [H H2].
    apply andb_true_iff in H. destruct H as [H H1].
    apply andb_true_iff in H. destruct H as [Hf _].
    apply (includes_toLowerCase "fibonacci") in Hf.
    change (toLowerCase "fibonacci") with "fibonacci"%string in Hf.
    unfold classify, hasFibonacci. rewrite Hf, H1, H2. reflexivity.
Qed.

Lemma exponential_verdict_survives_witness :
  worst (timeComplexity (Rev1.classify pythonFibonacciWithLoop python)) = "O(2^n)"
  /\ worst (timeComplexity (Rev2.classify pythonFibonacciWithLoop python)) = "O(2^n)"
  /\ classify pythonFibonacciWithLoop python = fibonacciProfile.
Proof.
  assert (H1 : worst (timeComplexity (Rev1.classify pythonFibonacciWithLoop python))
               = "O(2^n)") by (vm_compute; reflexivity).
  destruct (exponential_verdict_survives pythonFibonacciWithLoop python)
    as [H12 H2l].
  split; [exact H1|]. split; [exact (H12 H1) | exact (H2l (H12 H1))].
Defined.
